(** * reddit-mcp: the Reddit client and its tool dispatcher

    A shallow embedding of [src/reddit-client.ts] (class [RedditClient]),
    [src/config.ts] and the tool handler of [src/index.ts], followed
    by the properties of the session manager, the request executor, the
    entity mappers and the comment flattener.

    Conventions of the embedding.
    - A JavaScript value is a [value]; a number of a payload is an integer
      literal ([Z]), printed in plain decimal, and the arithmetic of the
      session on numbers is that of doubles ([number]); strings are
      sequences of one-byte characters.
    - A thrown exception is [Throw e]; a method that returns is [Ok a].
    - [async] methods run in the monad [M]: a state monad over the [World]
      (the client's private fields, the number of clock reads, and the log of
      network events) into which the remote side is passed as an [Env]. *)

From Stdlib Require Import ZArith String Ascii List Bool Lia DecimalString.
Import ListNotations.

Local Open Scope list_scope.
Local Open Scope string_scope.
Local Open Scope Z_scope.

(** ** JavaScript values *)

#[warnings="-register-all"] Inductive value : Type :=
| JUndefined
| JNull
| JBool (b : bool)
| JNum (n : Z)
| JStr (s : string)
| JArr (items : list value)
| JObj (props : list (string * value)).

Inductive Error : Type :=
| JsError (message : string)  (* new Error(message) *)
| TypeError                   (* read of a property of null or undefined,
                                 call of a non-function, for-of over a
                                 non-iterable *)
| SyntaxError                 (* response.json() on a body that is not JSON *)
| FetchError                  (* fetch rejected: there is no response *)
| RangeError                  (* recursion deeper than the call stack *)
| ZodError                    (* schema.parse rejected the arguments *)
| ToolNotFound (name : string).
                              (* McpError(MethodNotFound, `Tool ${name} not found`) *)

Inductive Outcome (A : Type) : Type :=
| Ok (a : A)
| Throw (e : Error).

Arguments Ok {A} a.
Arguments Throw {A} e.

Definition obind {A B} (c : Outcome A) (k : A -> Outcome B) : Outcome B :=
  match c with
  | Ok a => k a
  | Throw e => Throw e
  end.

Declare Scope outcome_scope.
Delimit Scope outcome_scope with outcome.
Notation "x <~ c ;; k" := (obind c (fun x => k))
  (at level 61, c at next level, right associativity) : outcome_scope.

(** Number.prototype.toString / template interpolation of an integer. *)
Definition show (n : Z) : string := NilZero.string_of_int (Z.to_int n).

(** ToBoolean. *)
Definition truthy (v : value) : bool :=
  match v with
  | JUndefined | JNull => false
  | JBool b => b
  | JNum n => negb (n =? 0)
  | JStr s => negb (String.eqb s "")
  | JArr _ | JObj _ => true
  end.

(** [v === 'lit'] for a string literal. *)
Definition strict_eq_str (v : value) (lit : string) : bool :=
  match v with
  | JStr s => String.eqb s lit
  | _ => false
  end.

(** An object is the list of its own properties; the property of a key is
    its first entry, [undefined] when there is none. *)
Fixpoint lookup (key : string) (props : list (string * value)) : value :=
  match props with
  | [] => JUndefined
  | (k, v) :: rest => if String.eqb k key then v else lookup key rest
  end.

(** [v.key] for the property names the client reads (kind, data, children,
    replies, id, ...): none of them is a built-in property of a string, an
    array, a number or a boolean, so only an object can answer. *)
Definition get (v : value) (key : string) : Outcome value :=
  match v with
  | JUndefined | JNull => Throw TypeError
  | JObj props => Ok (lookup key props)
  | JBool _ | JNum _ | JStr _ | JArr _ => Ok JUndefined
  end.

(** [v[i]] for a literal index. *)
Definition at_index (v : value) (i : nat) : Outcome value :=
  match v with
  | JUndefined | JNull => Throw TypeError
  | JArr items => Ok (nth i items JUndefined)
  | JObj props => Ok (lookup (show (Z.of_nat i)) props)
  | JStr s =>
      Ok match String.get i s with
         | Some c => JStr (String c EmptyString)
         | None => JUndefined
         end
  | JBool _ | JNum _ => Ok JUndefined
  end.

(** ToString, as a template literal applies it. The text is the engine's
    for every primitive value with a number up to 2^53 in magnitude, and for
    the arrays and objects without a property named toString; the engine
    prints a number from 10^21 on in exponent form and refuses an object
    that has such a property. *)
Fixpoint to_string (v : value) : string :=
  match v with
  | JUndefined => "undefined"
  | JNull => "null"
  | JBool true => "true"
  | JBool false => "false"
  | JNum n => show n
  | JStr s => s
  | JArr items =>
      (fix join (l : list value) : string :=
         match l with
         | [] => ""
         | x :: rest =>
             let elem := match x with
                         | JUndefined | JNull => ""
                         | _ => to_string x
                         end in
             match rest with
             | [] => elem
             | _ :: _ => elem ++ "," ++ join rest
             end
         end) items
  | JObj _ => "[object Object]"
  end.

(** [a || b]. *)
Definition or_else (a b : value) : value := if truthy a then a else b.

(** Nesting depth of a value; bounds the recursion of the flattener. *)
Fixpoint depth (v : value) : nat :=
  match v with
  | JArr items =>
      S ((fix go (l : list value) : nat :=
            match l with
            | [] => O
            | x :: rest => Nat.max (depth x) (go rest)
            end) items)
  | JObj props =>
      S ((fix go (l : list (string * value)) : nat :=
            match l with
            | [] => O
            | (_, x) :: rest => Nat.max (depth x) (go rest)
            end) props)
  | _ => O
  end.

(** ** Entities (the exported interfaces of reddit-client.ts)

    A field holds whatever the payload held: the interfaces are erased at
    run time. Only the fields the client builds itself are strings. *)

Module RedditPost.
Record t : Type := {
  id : value;
  title : value;
  author : value;
  subreddit : value;
  url : value;
  selftext : value;
  created_utc : value;
  score : value;
  num_comments : value;
  permalink : string;
  is_self : value;
  domain : value;
  thumbnail : value  (* JUndefined: the field is absent *)
}.
End RedditPost.

Module RedditComment.
Record t : Type := {
  id : value;
  author : value;
  body : value;
  created_utc : value;
  score : value;
  permalink : string;
  parent_id : value;
  subreddit : value
}.
End RedditComment.

Module RedditSubreddit.
Record t : Type := {
  display_name : value;
  title : value;
  description : value;
  subscribers : value;
  created_utc : value;
  public_description : value;
  url : string;
  over18 : value
}.
End RedditSubreddit.

Module RedditUser.
Record t : Type := {
  name : value;
  id : value;
  created_utc : value;
  comment_karma : value;
  link_karma : value;
  is_verified : value;
  has_verified_email : value
}.
End RedditUser.

(** ** Entity mappers *)

Section Mappers.
Local Open Scope outcome_scope.

Definition mapPost (data : value) : Outcome RedditPost.t :=
  id <~ get data "id" ;;
  title <~ get data "title" ;;
  author <~ get data "author" ;;
  subreddit <~ get data "subreddit" ;;
  url <~ get data "url" ;;
  selftext <~ get data "selftext" ;;
  created_utc <~ get data "created_utc" ;;
  score <~ get data "score" ;;
  num_comments <~ get data "num_comments" ;;
  permalink <~ get data "permalink" ;;
  is_self <~ get data "is_self" ;;
  domain <~ get data "domain" ;;
  thumbnail <~ get data "thumbnail" ;;
  Ok {| RedditPost.id := id;
        RedditPost.title := title;
        RedditPost.author := author;
        RedditPost.subreddit := subreddit;
        RedditPost.url := url;
        RedditPost.selftext := or_else selftext (JStr "");
        RedditPost.created_utc := created_utc;
        RedditPost.score := score;
        RedditPost.num_comments := num_comments;
        RedditPost.permalink := "https://reddit.com" ++ to_string permalink;
        RedditPost.is_self := is_self;
        RedditPost.domain := domain;
        RedditPost.thumbnail :=
          if negb (strict_eq_str thumbnail "self")
             && negb (strict_eq_str thumbnail "default")
          then thumbnail else JUndefined |}.

Definition mapComment (data : value) : Outcome RedditComment.t :=
  id <~ get data "id" ;;
  author <~ get data "author" ;;
  body <~ get data "body" ;;
  created_utc <~ get data "created_utc" ;;
  score <~ get data "score" ;;
  permalink <~ get data "permalink" ;;
  parent_id <~ get data "parent_id" ;;
  subreddit <~ get data "subreddit" ;;
  Ok {| RedditComment.id := id;
        RedditComment.author := author;
        RedditComment.body := body;
        RedditComment.created_utc := created_utc;
        RedditComment.score := score;
        RedditComment.permalink := "https://reddit.com" ++ to_string permalink;
        RedditComment.parent_id := parent_id;
        RedditComment.subreddit := subreddit |}.

Definition mapSubreddit (data : value) : Outcome RedditSubreddit.t :=
  display_name <~ get data "display_name" ;;
  title <~ get data "title" ;;
  description <~ get data "description" ;;
  subscribers <~ get data "subscribers" ;;
  created_utc <~ get data "created_utc" ;;
  public_description <~ get data "public_description" ;;
  over18 <~ get data "over18" ;;
  Ok {| RedditSubreddit.display_name := display_name;
        RedditSubreddit.title := title;
        RedditSubreddit.description := description;
        RedditSubreddit.subscribers := subscribers;
        RedditSubreddit.created_utc := created_utc;
        RedditSubreddit.public_description := public_description;
        RedditSubreddit.url := "https://reddit.com/r/" ++ to_string display_name;
        RedditSubreddit.over18 := over18 |}.

Definition mapUser (data : value) : Outcome RedditUser.t :=
  name <~ get data "name" ;;
  id <~ get data "id" ;;
  created_utc <~ get data "created_utc" ;;
  comment_karma <~ get data "comment_karma" ;;
  link_karma <~ get data "link_karma" ;;
  is_verified <~ get data "is_verified" ;;
  has_verified_email <~ get data "has_verified_email" ;;
  Ok {| RedditUser.name := name;
        RedditUser.id := id;
        RedditUser.created_utc := created_utc;
        RedditUser.comment_karma := comment_karma;
        RedditUser.link_karma := link_karma;
        RedditUser.is_verified := is_verified;
        RedditUser.has_verified_email := has_verified_email |}.

(** [arr.map((child) => f(child.data))]. *)
Fixpoint map_children {A} (f : value -> Outcome A) (items : list value)
  : Outcome (list A) :=
  match items with
  | [] => Ok []
  | child :: rest =>
      data <~ get child "data" ;;
      a <~ f data ;;
      others <~ map_children f rest ;;
      Ok (a :: others)
  end.

(** [data.data.children.map((child) => f(child.data))]. *)
Definition listing {A} (f : value -> Outcome A) (data : value)
  : Outcome (list A) :=
  d <~ get data "data" ;;
  children <~ get d "children" ;;
  match children with
  | JArr items => map_children f items
  | _ => Throw TypeError
  end.
End Mappers.

(** ** Comment flattener *)

Section Flattener.
Local Open Scope outcome_scope.

(** [for (const child of iterable) body], threading the accumulator the
    body mutates. An array yields its elements, a string its characters;
    nothing else the parser produces is iterable. *)
Fixpoint for_each {A} (body : value -> A -> Outcome A) (items : list value)
  (acc : A) : Outcome A :=
  match items with
  | [] => Ok acc
  | child :: rest => acc' <~ body child acc ;; for_each body rest acc'
  end.

Definition characters (s : string) : list value :=
  map (fun c => JStr (String c EmptyString)) (list_ascii_of_string s).

Definition for_of {A} (body : value -> A -> Outcome A) (iterable : value)
  (acc : A) : Outcome A :=
  match iterable with
  | JArr items => for_each body items acc
  | JStr s => for_each body (characters s) acc
  | _ => Throw TypeError
  end.

(** The body of the loop of [extractComments]; [self] is the recursive
    call, [comments ++ [c]] is [comments.push(c)]. *)
Definition visit (self : value -> list RedditComment.t -> Outcome (list RedditComment.t))
  (child : value) (comments : list RedditComment.t)
  : Outcome (list RedditComment.t) :=
  kind <~ get child "kind" ;;
  if strict_eq_str kind "t1" then
    data <~ get child "data" ;;
    if truthy data then
      c <~ mapComment data ;;
      let comments := (comments ++ [c])%list in
      replies <~ get data "replies" ;;
      if truthy replies then
        rdata <~ get replies "data" ;;
        if truthy rdata then
          rchildren <~ get rdata "children" ;;
          if truthy rchildren then self rchildren comments
          else Ok comments
        else Ok comments
      else Ok comments
    else Ok comments
  else Ok comments.

(** The recursion follows the nesting of the payload; [fuel] bounds the
    number of nested calls, and running out of it is the engine's
    stack-overflow [RangeError]. *)
Fixpoint extractComments_fuel (fuel : nat) (children : value)
  (comments : list RedditComment.t) : Outcome (list RedditComment.t) :=
  match fuel with
  | O => Throw RangeError
  | S fuel' => for_of (visit (extractComments_fuel fuel')) children comments
  end.

(** One nested call per level of arrays suffices. *)
Definition extractComments (children : value) (comments : list RedditComment.t)
  : Outcome (list RedditComment.t) :=
  extractComments_fuel (S (depth children)) children comments.

End Flattener.

(** ** Text encodings used on the wire *)

Definition byte_of (c : ascii) : N := N_of_ascii c.

Definition in_range (lo hi : N) (n : N) : bool := ((lo <=? n) && (n <=? hi))%N.

Definition is_alnum (c : ascii) : bool :=
  let n := byte_of c in
  in_range 48 57 n || in_range 65 90 n || in_range 97 122 n.

Definition one_of (set : string) (c : ascii) : bool :=
  existsb (Ascii.eqb c) (list_ascii_of_string set).

Definition digit_of (alphabet : string) (n : N) : string :=
  match String.get (N.to_nat n) alphabet with
  | Some c => String c EmptyString
  | None => ""
  end.

Definition percent (c : ascii) : string :=
  let n := byte_of c in
  "%" ++ digit_of "0123456789ABCDEF" (n / 16) ++ digit_of "0123456789ABCDEF" (n mod 16).

Definition encode_with (f : ascii -> string) (s : string) : string :=
  String.concat "" (map f (list_ascii_of_string s)).

(** The application/x-www-form-urlencoded byte serializer. *)
Definition form_urlencode : string -> string :=
  encode_with (fun c =>
    if is_alnum c || one_of "*-._" c then String c EmptyString
    else if Ascii.eqb c " " then "+"
    else percent c).

Definition encodeURIComponent : string -> string :=
  encode_with (fun c =>
    if is_alnum c || one_of "-_.!~*'()" c then String c EmptyString
    else percent c).

(** [new URLSearchParams(record).toString()]; the record is the list of its
    own properties in insertion order, each value already a string. *)
Definition URLSearchParams (params : list (string * string)) : string :=
  String.concat "&"
    (map (fun kv => form_urlencode (fst kv) ++ "=" ++ form_urlencode (snd kv)) params).

Definition base64_alphabet : string :=
  "ABCDEFGHIJKLMNOPQRSTUVWXYZabcdefghijklmnopqrstuvwxyz0123456789+/".

Fixpoint base64_bytes (l : list N) : string :=
  let d := digit_of base64_alphabet in
  match l with
  | [] => ""
  | [a] => d (a / 4) ++ d ((a mod 4) * 16) ++ "=="
  | [a; b] =>
      d (a / 4) ++ d ((a mod 4) * 16 + b / 16) ++ d ((b mod 16) * 4) ++ "="
  | a :: b :: c :: rest =>
      d (a / 4) ++ d ((a mod 4) * 16 + b / 16) ++ d ((b mod 16) * 4 + c / 64)
        ++ d (c mod 64) ++ base64_bytes rest
  end%N.

(** [Buffer.from(s).toString('base64')]. *)
Definition base64 (s : string) : string :=
  base64_bytes (map byte_of (list_ascii_of_string s)).

(** ** Configuration (src/config.ts) *)

Module Config.
Record t : Type := {
  clientId : string;
  clientSecret : string;
  userAgent : string;
  username : option string;
  password : option string;
  refreshToken : option string;
  accessToken : option string
}.
End Config.

(** [getConfig()]: the environment variables, with the fallbacks of the
    source, through [ConfigSchema.parse], which wants the first three
    non-empty. *)
Definition getConfig (process_env : string -> option string) : Outcome Config.t :=
  let or_default (o : option string) (d : string) : string :=
    match o with
    | Some s => if String.eqb s "" then d else s
    | None => d
    end in
  let config :=
    {| Config.clientId := or_default (process_env "REDDIT_CLIENT_ID") "";
       Config.clientSecret := or_default (process_env "REDDIT_CLIENT_SECRET") "";
       Config.userAgent := or_default (process_env "REDDIT_USER_AGENT")
                             "reddit-mcp-server/1.0.0";
       Config.username := process_env "REDDIT_USERNAME";
       Config.password := process_env "REDDIT_PASSWORD";
       Config.refreshToken := process_env "REDDIT_REFRESH_TOKEN";
       Config.accessToken := process_env "REDDIT_ACCESS_TOKEN" |} in
  if String.eqb (Config.clientId config) ""
     || String.eqb (Config.clientSecret config) ""
     || String.eqb (Config.userAgent config) ""
  then Throw ZodError
  else Ok config.

(** A [string | undefined] field as a value. *)
Definition optional (o : option string) : value :=
  match o with
  | Some s => JStr s
  | None => JUndefined
  end.

(** ** Numbers of the session

    A Number that is an integer, an infinity or NaN. The arithmetic is that
    of IEEE 754 doubles on such values: the exact result rounded to the
    nearest double, ties to even, an infinity past the largest double. The
    sign of zero is not kept: nothing here observes it. *)

Inductive number : Type :=
| Num (z : Z)
| Inf (negative : bool)
| NaN.

(** The double nearest to the integer [z]. Up to 2^53 every integer is a
    double; above, the doubles are the multiples of 2^e with a quotient of
    53 bits. *)
Definition round_double (z : Z) : number :=
  let a := Z.abs z in
  if a <=? 2 ^ 53 then Num z
  else
    let e := Z.log2 a - 52 in
    let q := a / 2 ^ e in
    let r := a mod 2 ^ e in
    let half := 2 ^ (e - 1) in
    let m := if r <? half then q
             else if half <? r then q + 1
             else if Z.even q then q else q + 1 in
    if 2 ^ 1024 <=? m * 2 ^ e then Inf (z <? 0)
    else Num (Z.sgn z * (m * 2 ^ e)).

Definition fneg (a : number) : number :=
  match a with
  | Num x => Num (- x)
  | Inf s => Inf (negb s)
  | NaN => NaN
  end.

(** [a + b] *)
Definition fadd (a b : number) : number :=
  match a, b with
  | Num x, Num y => round_double (x + y)
  | Inf s, Num _ => Inf s
  | Num _, Inf s => Inf s
  | Inf s, Inf s' => if Bool.eqb s s' then Inf s else NaN
  | _, _ => NaN
  end.

(** [a - b] *)
Definition fsub (a b : number) : number := fadd a (fneg b).

(** [a * b] *)
Definition fmul (a b : number) : number :=
  match a, b with
  | Num x, Num y => round_double (x * y)
  | Inf s, Num y => if y =? 0 then NaN else Inf (xorb s (y <? 0))
  | Num x, Inf s => if x =? 0 then NaN else Inf (xorb s (x <? 0))
  | Inf s, Inf s' => Inf (xorb s s')
  | _, _ => NaN
  end.

(** [a < b] *)
Definition lt_number (a b : number) : bool :=
  match a, b with
  | Num x, Num y => x <? y
  | Num _, Inf negative => negb negative
  | Inf negative, Num _ => negative
  | Inf s, Inf s' => s && negb s'
  | _, _ => false
  end.

(** ToNumber; a number of the payload is the double nearest to its
    literal; the conversion of a string is the engine's StringToNumber,
    which the embedding takes as given. *)
Definition to_number (StringToNumber : string -> number) (v : value) : number :=
  match v with
  | JUndefined => NaN
  | JNull => Num 0
  | JBool b => Num (if b then 1 else 0)
  | JNum n => round_double n
  | JStr s => StringToNumber s
  | JArr _ => StringToNumber (to_string v)
  | JObj _ => NaN
  end.

(** ** The transport and the world *)

Record Request : Type := {
  url : string;
  method : string;
  headers : list (string * string);
  body : option string
}.

Record Response : Type := {
  status : Z;
  statusText : string;
  payload : option value  (* [None]: the body is not JSON *)
}.

(** node-fetch: [ok] is [status >= 200 && status < 300]. *)
Definition ok (r : Response) : bool := (200 <=? status r) && (status r <? 300).

Inductive Event : Type :=
| Fetched (req : Request)   (* fetch(url, init) was called *)
| Parsed (res : Response).  (* res.json() was called *)

Definition is_fetch (e : Event) : bool :=
  match e with
  | Fetched _ => true
  | Parsed _ => false
  end.

(** The requests of a log, oldest first. *)
Definition requests (log : list Event) : list Request :=
  flat_map (fun e => match e with Fetched r => [r] | Parsed _ => [] end) log.

(** The private fields of [RedditClient] that change. *)
Record RedditClient : Type := {
  accessToken : value;
  tokenExpiry : number
}.

Record World : Type := {
  this : RedditClient;
  reads : nat;        (* how often Date.now() was read *)
  log : list Event    (* network events, oldest first *)
}.

(** What the program cannot decide: the clock and the remote hosts. *)
Record Env : Type := {
  now : nat -> Z;                                (* the k-th Date.now() *)
  respond : nat -> Request -> option Response;   (* the k-th fetch; [None]: rejected *)
  StringToNumber : string -> number
}.

Definition M (A : Type) : Type := Env -> World -> Outcome A * World.

Definition ret {A} (a : A) : M A := fun _ w => (Ok a, w).

Definition throw {A} (e : Error) : M A := fun _ w => (Throw e, w).

Definition lift {A} (o : Outcome A) : M A := fun _ w => (o, w).

Definition bind {A B} (c : M A) (k : A -> M B) : M B :=
  fun env w =>
    match c env w with
    | (Ok a, w') => k a env w'
    | (Throw e, w') => (Throw e, w')
    end.

Declare Scope js_scope.
Delimit Scope js_scope with js.
Notation "x <- c ;; k" := (bind c (fun x => k))
  (at level 61, c at next level, right associativity) : js_scope.
Notation "c ;; k" := (bind c (fun _ => k))
  (at level 61, right associativity) : js_scope.

Definition Date_now : M Z :=
  fun env w =>
    (Ok (now env (reads w)),
     {| this := this w; reads := S (reads w); log := log w |}).

Definition fetch (req : Request) : M Response :=
  fun env w =>
    let w' := {| this := this w; reads := reads w;
                 log := (log w ++ [Fetched req])%list |} in
    match respond env (length (requests (log w))) req with
    | Some res => (Ok res, w')
    | None => (Throw FetchError, w')
    end.

Definition json (res : Response) : M value :=
  fun _ w =>
    let w' := {| this := this w; reads := reads w;
                 log := (log w ++ [Parsed res])%list |} in
    match payload res with
    | Some v => (Ok v, w')
    | None => (Throw SyntaxError, w')
    end.

Definition read_this : M RedditClient := fun _ w => (Ok (this w), w).

Definition set_accessToken (v : value) : M unit :=
  fun _ w =>
    (Ok tt, {| this := {| accessToken := v; tokenExpiry := tokenExpiry (this w) |};
               reads := reads w; log := log w |}).

Definition set_tokenExpiry (n : number) : M unit :=
  fun _ w =>
    (Ok tt, {| this := {| accessToken := accessToken (this w); tokenExpiry := n |};
               reads := reads w; log := log w |}).

Definition env_StringToNumber : M (string -> number) :=
  fun env w => (Ok (StringToNumber env), w).

(** ** class RedditClient (src/reddit-client.ts) *)

Section Client.
Local Open Scope js_scope.

Variable config : Config.t.

Definition baseUrl : string := "https://oauth.reddit.com".
Definition authUrl : string := "https://www.reddit.com/api/v1/access_token".

(** [constructor(config)]: the field initialisers, then the body. *)
Definition constructor : RedditClient :=
  {| accessToken := or_else (optional (Config.accessToken config)) JNull;
     tokenExpiry := Num 0 |}.

(** The world when the server has built its client. *)
Definition startup : World :=
  {| this := constructor; reads := O; log := [] |}.

(** The record handed to [new URLSearchParams] in [authenticate]. *)
Definition grant_params : list (string * string) :=
  if truthy (optional (Config.refreshToken config)) then
    [("grant_type", "refresh_token");
     ("refresh_token", to_string (optional (Config.refreshToken config)))]
  else if truthy (optional (Config.username config))
          && truthy (optional (Config.password config)) then
    [("grant_type", "password");
     ("username", to_string (optional (Config.username config)));
     ("password", to_string (optional (Config.password config)))]
  else
    [("grant_type", "client_credentials")].

Definition token_request : Request :=
  let auth := base64 (Config.clientId config ++ ":" ++ Config.clientSecret config) in
  {| url := authUrl;
     method := "POST";
     headers := [("Authorization", "Basic " ++ auth);
                 ("Content-Type", "application/x-www-form-urlencoded");
                 ("User-Agent", Config.userAgent config)];
     body := Some (URLSearchParams grant_params) |}.

(** [this.accessToken && Date.now() < this.tokenExpiry]: the clock is read
    only when there is a token. *)
Definition token_is_fresh : M bool :=
  self <- read_this ;;
  if truthy (accessToken self) then
    t <- Date_now ;;
    ret (lt_number (Num t) (tokenExpiry self))
  else ret false.

(** The rest of [authenticate], past the early return: the token exchange. *)
Definition exchange_token : M unit :=
  response <- fetch token_request ;;
  if negb (ok response) then
    throw (JsError ("Authentication failed: " ++ show (status response)
                      ++ " " ++ statusText response))
  else
    data <- json response ;;
    access_token <- lift (get data "access_token") ;;
    set_accessToken access_token ;;
    t <- Date_now ;;
    expires_in <- lift (get data "expires_in") ;;
    ToNumber <- env_StringToNumber ;;
    set_tokenExpiry
      (fsub (fadd (Num t) (fmul (to_number ToNumber expires_in) (Num 1000)))
         (Num 60000)).

Definition authenticate : M unit :=
  fresh <- token_is_fresh ;;
  if fresh then ret tt else exchange_token.

(** Every call site passes the endpoint alone, so [options] is [{}]: the
    request is a GET with the three headers. *)
Definition api_request (token : value) (endpoint : string) : Request :=
  {| url := baseUrl ++ endpoint;
     method := "GET";
     headers := [("Authorization", "Bearer " ++ to_string token);
                 ("User-Agent", Config.userAgent config);
                 ("Content-Type", "application/json")];
     body := None |}.

Definition makeRequest (endpoint : string) : M value :=
  authenticate ;;
  self <- read_this ;;
  response <- fetch (api_request (accessToken self) endpoint) ;;
  if negb (ok response) then
    throw (JsError ("Reddit API error: " ++ show (status response)
                      ++ " " ++ statusText response))
  else json response.

(** A parameter with a default takes it when the argument is [undefined]. *)
Definition default_to (d : value) (v : value) : value :=
  match v with
  | JUndefined => d
  | _ => v
  end.

Definition getSubredditPosts (subreddit sort limit : value) : M (list RedditPost.t) :=
  let sort := default_to (JStr "hot") sort in
  let limit := default_to (JNum 25) limit in
  data <- makeRequest ("/r/" ++ to_string subreddit ++ "/" ++ to_string sort
                         ++ "?limit=" ++ to_string limit) ;;
  lift (listing mapPost data).

Definition getPost (postId : value) : M RedditPost.t :=
  data <- makeRequest ("/comments/" ++ to_string postId) ;;
  lift (first <~ at_index data 0 ;;
        d <~ get first "data" ;;
        children <~ get d "children" ;;
        child <~ at_index children 0 ;;
        raw <~ get child "data" ;;
        mapPost raw)%outcome.

Definition getPostComments (postId sort : value) : M (list RedditComment.t) :=
  let sort := default_to (JStr "best") sort in
  data <- makeRequest ("/comments/" ++ to_string postId ++ "?sort=" ++ to_string sort) ;;
  lift (second <~ at_index data 1 ;;
        if truthy second then
          d <~ get second "data" ;;
          if truthy d then
            children <~ get d "children" ;;
            if truthy children then extractComments children []
            else Ok []
          else Ok []
        else Ok [])%outcome.

Definition getSubredditInfo (subreddit : value) : M RedditSubreddit.t :=
  data <- makeRequest ("/r/" ++ to_string subreddit ++ "/about") ;;
  lift (d <~ get data "data" ;; mapSubreddit d)%outcome.

Definition getUserInfo (username : value) : M RedditUser.t :=
  data <- makeRequest ("/user/" ++ to_string username ++ "/about") ;;
  lift (d <~ get data "data" ;; mapUser d)%outcome.

Definition getUserPosts (username sort limit : value) : M (list RedditPost.t) :=
  let sort := default_to (JStr "new") sort in
  let limit := default_to (JNum 25) limit in
  data <- makeRequest ("/user/" ++ to_string username ++ "/submitted?sort="
                         ++ to_string sort ++ "&limit=" ++ to_string limit) ;;
  lift (listing mapPost data).

Definition getUserComments (username sort limit : value) : M (list RedditComment.t) :=
  let sort := default_to (JStr "new") sort in
  let limit := default_to (JNum 25) limit in
  data <- makeRequest ("/user/" ++ to_string username ++ "/comments?sort="
                         ++ to_string sort ++ "&limit=" ++ to_string limit) ;;
  lift (listing mapComment data).

(** The record handed to [new URLSearchParams] in [searchPosts]: the four
    fixed properties, then what the two spreads add. [limit.toString()]
    throws on [null]. *)
Definition search_params (query subreddit sort time limit : value)
  : Outcome (list (string * string)) :=
  match limit with
  | JNull | JUndefined => Throw TypeError
  | _ =>
      Ok ([("q", to_string query);
           ("sort", to_string sort);
           ("limit", to_string limit);
           ("type", "link")]
          ++ (if truthy subreddit then [("restrict_sr", "true")] else [])
          ++ (if truthy time then [("t", to_string time)] else []))%list
  end.

Definition searchPosts (query subreddit sort time limit : value) : M (list RedditPost.t) :=
  let sort := default_to (JStr "relevance") sort in
  let limit := default_to (JNum 25) limit in
  let searchPath :=
    if truthy subreddit then "/r/" ++ to_string subreddit ++ "/search"
    else "/search" in
  params <- lift (search_params query subreddit sort time limit) ;;
  data <- makeRequest (searchPath ++ "?" ++ URLSearchParams params) ;;
  lift (listing mapPost data).

Definition searchSubreddits (query limit : value) : M (list RedditSubreddit.t) :=
  let limit := default_to (JNum 25) limit in
  data <- makeRequest ("/subreddits/search?q=" ++ encodeURIComponent (to_string query)
                         ++ "&limit=" ++ to_string limit) ;;
  lift (listing mapSubreddit data).

End Client.

(** ** The public methods as one type *)

Inductive Query : Type :=
| GetSubredditPosts (subreddit sort limit : value)
| GetPost (postId : value)
| GetPostComments (postId sort : value)
| GetSubredditInfo (subreddit : value)
| GetUserInfo (username : value)
| GetUserPosts (username sort limit : value)
| GetUserComments (username sort limit : value)
| SearchPosts (query subreddit sort time limit : value)
| SearchSubreddits (query limit : value).

Inductive Entity : Type :=
| Posts (posts : list RedditPost.t)
| Post (post : RedditPost.t)
| Comments (comments : list RedditComment.t)
| Subreddit (subreddit : RedditSubreddit.t)
| User (user : RedditUser.t)
| Subreddits (subreddits : list RedditSubreddit.t).

Definition returning {A} (wrap : A -> Entity) (c : M A) : M Entity :=
  bind c (fun a => ret (wrap a)).

Definition perform (config : Config.t) (q : Query) : M Entity :=
  match q with
  | GetSubredditPosts subreddit sort limit =>
      returning Posts (getSubredditPosts config subreddit sort limit)
  | GetPost postId => returning Post (getPost config postId)
  | GetPostComments postId sort =>
      returning Comments (getPostComments config postId sort)
  | GetSubredditInfo subreddit =>
      returning Subreddit (getSubredditInfo config subreddit)
  | GetUserInfo username => returning User (getUserInfo config username)
  | GetUserPosts username sort limit =>
      returning Posts (getUserPosts config username sort limit)
  | GetUserComments username sort limit =>
      returning Comments (getUserComments config username sort limit)
  | SearchPosts query subreddit sort time limit =>
      returning Posts (searchPosts config query subreddit sort time limit)
  | SearchSubreddits query limit =>
      returning Subreddits (searchSubreddits config query limit)
  end.

(** The endpoint a method hands to [makeRequest]. *)
Definition endpoint (q : Query) : Outcome string :=
  match q with
  | GetSubredditPosts subreddit sort limit =>
      Ok ("/r/" ++ to_string subreddit ++ "/" ++ to_string (default_to (JStr "hot") sort)
            ++ "?limit=" ++ to_string (default_to (JNum 25) limit))
  | GetPost postId => Ok ("/comments/" ++ to_string postId)
  | GetPostComments postId sort =>
      Ok ("/comments/" ++ to_string postId ++ "?sort="
            ++ to_string (default_to (JStr "best") sort))
  | GetSubredditInfo subreddit => Ok ("/r/" ++ to_string subreddit ++ "/about")
  | GetUserInfo username => Ok ("/user/" ++ to_string username ++ "/about")
  | GetUserPosts username sort limit =>
      Ok ("/user/" ++ to_string username ++ "/submitted?sort="
            ++ to_string (default_to (JStr "new") sort)
            ++ "&limit=" ++ to_string (default_to (JNum 25) limit))
  | GetUserComments username sort limit =>
      Ok ("/user/" ++ to_string username ++ "/comments?sort="
            ++ to_string (default_to (JStr "new") sort)
            ++ "&limit=" ++ to_string (default_to (JNum 25) limit))
  | SearchPosts query subreddit sort time limit =>
      (params <~ search_params query subreddit (default_to (JStr "relevance") sort)
                   time (default_to (JNum 25) limit) ;;
       Ok ((if truthy subreddit then "/r/" ++ to_string subreddit ++ "/search"
            else "/search") ++ "?" ++ URLSearchParams params))%outcome
  | SearchSubreddits query limit =>
      Ok ("/subreddits/search?q=" ++ encodeURIComponent (to_string query)
            ++ "&limit=" ++ to_string (default_to (JNum 25) limit))
  end.

(** ** The tool dispatcher (src/index.ts) *)

Section Server.
Local Open Scope outcome_scope.

(** [z.string().min(1, ...)] *)
Definition z_string_min1 (v : value) : Outcome value :=
  match v with
  | JStr s => if String.eqb s "" then Throw ZodError else Ok v
  | _ => Throw ZodError
  end.

(** [z.string().optional()] *)
Definition z_string_optional (v : value) : Outcome value :=
  match v with
  | JUndefined | JStr _ => Ok v
  | _ => Throw ZodError
  end.

(** [z.enum(options).default(d)] *)
Definition z_enum_default (options : list string) (d : string) (v : value)
  : Outcome value :=
  match v with
  | JUndefined => Ok (JStr d)
  | JStr s => if existsb (String.eqb s) options then Ok v else Throw ZodError
  | _ => Throw ZodError
  end.

(** [z.number().min(1).max(100).default(25)] *)
Definition z_limit (v : value) : Outcome value :=
  match v with
  | JUndefined => Ok (JNum 25)
  | JNum n => if (1 <=? n) && (n <=? 100) then Ok v else Throw ZodError
  | _ => Throw ZodError
  end.

(** [z.object({...}).parse(arguments)] reads the declared keys of an object
    and drops every other key; anything but an object is rejected. *)
Definition z_field (check : value -> Outcome value) (arguments : value) (key : string)
  : Outcome value :=
  match arguments with
  | JObj props => check (lookup key props)
  | _ => Throw ZodError
  end.

Definition sorts_of_listing : list string := ["hot"; "new"; "top"; "rising"].
Definition sorts_of_comments : list string := ["best"; "top"; "new"; "controversial"; "old"].
Definition sorts_of_user : list string := ["hot"; "new"; "top"].
Definition sorts_of_search : list string := ["relevance"; "hot"; "top"; "new"; "comments"].

(** The [switch] of the handler: the schema of the named tool parses the
    arguments, then the method is called with the parsed fields in the
    order the source writes them. For [search_posts] that is four arguments
    to a method of five parameters (query, subreddit, sort, time, limit):
    [args.limit] is the fourth, and the fifth is left [undefined]. *)
Definition tool_call (name : string) (arguments : value) : Outcome Query :=
  if String.eqb name "get_subreddit_posts" then
    subreddit <~ z_field z_string_min1 arguments "subreddit" ;;
    sort <~ z_field (z_enum_default sorts_of_listing "hot") arguments "sort" ;;
    limit <~ z_field z_limit arguments "limit" ;;
    Ok (GetSubredditPosts subreddit sort limit)
  else if String.eqb name "get_post" then
    postId <~ z_field z_string_min1 arguments "postId" ;;
    Ok (GetPost postId)
  else if String.eqb name "get_post_comments" then
    postId <~ z_field z_string_min1 arguments "postId" ;;
    sort <~ z_field (z_enum_default sorts_of_comments "best") arguments "sort" ;;
    Ok (GetPostComments postId sort)
  else if String.eqb name "get_subreddit_info" then
    subreddit <~ z_field z_string_min1 arguments "subreddit" ;;
    Ok (GetSubredditInfo subreddit)
  else if String.eqb name "get_user_info" then
    username <~ z_field z_string_min1 arguments "username" ;;
    Ok (GetUserInfo username)
  else if String.eqb name "get_user_posts" then
    username <~ z_field z_string_min1 arguments "username" ;;
    sort <~ z_field (z_enum_default sorts_of_user "new") arguments "sort" ;;
    limit <~ z_field z_limit arguments "limit" ;;
    Ok (GetUserPosts username sort limit)
  else if String.eqb name "get_user_comments" then
    username <~ z_field z_string_min1 arguments "username" ;;
    sort <~ z_field (z_enum_default sorts_of_user "new") arguments "sort" ;;
    limit <~ z_field z_limit arguments "limit" ;;
    Ok (GetUserComments username sort limit)
  else if String.eqb name "search_posts" then
    query <~ z_field z_string_min1 arguments "query" ;;
    subreddit <~ z_field z_string_optional arguments "subreddit" ;;
    sort <~ z_field (z_enum_default sorts_of_search "relevance") arguments "sort" ;;
    limit <~ z_field z_limit arguments "limit" ;;
    Ok (SearchPosts query subreddit sort limit JUndefined)
  else if String.eqb name "search_subreddits" then
    query <~ z_field z_string_min1 arguments "query" ;;
    limit <~ z_field z_limit arguments "limit" ;;
    Ok (SearchSubreddits query limit)
  else Throw (ToolNotFound name).

Inductive ErrorCode : Type := InvalidParams | InternalError.

(** What the handler resolves to or rejects with. [McpError code cause] is
    [new McpError(code, text)] with the text built from [cause]; the text
    content of a result is [JSON.stringify] of the entity, kept as the
    entity here. *)
Inductive ToolResult : Type :=
| Content (entity : Entity)
| McpError (code : ErrorCode) (cause : Error).

(** The [catch] block. *)
Definition handle (result : Outcome Entity) : ToolResult :=
  match result with
  | Ok entity => Content entity
  | Throw ZodError => McpError InvalidParams ZodError
  | Throw e => McpError InternalError e
  end.

(** The handler of [CallToolRequestSchema]. *)
Definition call_tool (config : Config.t) (name : string) (arguments : value)
  : Env -> World -> ToolResult * World :=
  fun env w =>
    let (result, w') :=
      bind (lift (tool_call name arguments)) (perform config) env w in
    (handle result, w').

End Server.

(** ** The comment tree of the specification

    A node of a thread is a comment, with the properties of its payload and
    possibly a listing of replies, or a node of another kind (a "more"
    placeholder). [encode] is the payload the service sends for it: a
    comment without replies carries the empty string as [replies]. *)

#[warnings="-register-all"] Inductive Node : Type :=
| CommentNode (fields : list (string * value)) (replies : option (list Node))
| PlaceholderNode (kind : string) (data : value).

Fixpoint encode (n : Node) : value :=
  match n with
  | CommentNode fields replies =>
      JObj [("kind", JStr "t1");
            ("data",
             JObj (("replies",
                    match replies with
                    | Some children =>
                        JObj [("kind", JStr "Listing");
                              ("data", JObj [("children", JArr (map encode children))])]
                    | None => JStr ""
                    end) :: fields))]
  | PlaceholderNode kind data => JObj [("kind", JStr kind); ("data", data)]
  end.

(** A placeholder is of a kind other than the comment kind. *)
Fixpoint well_formed (n : Node) : bool :=
  match n with
  | CommentNode _ (Some children) => forallb well_formed children
  | CommentNode _ None => true
  | PlaceholderNode kind _ => negb (String.eqb kind "t1")
  end.

(** The Comment of a payload that is an object. *)
Definition comment_of (fields : list (string * value)) : RedditComment.t :=
  {| RedditComment.id := lookup "id" fields;
     RedditComment.author := lookup "author" fields;
     RedditComment.body := lookup "body" fields;
     RedditComment.created_utc := lookup "created_utc" fields;
     RedditComment.score := lookup "score" fields;
     RedditComment.permalink := "https://reddit.com" ++ to_string (lookup "permalink" fields);
     RedditComment.parent_id := lookup "parent_id" fields;
     RedditComment.subreddit := lookup "subreddit" fields |}.

(** Depth-first pre-order, in the words of the specification: a comment is
    emitted before its replies, which are flattened next; a node that is not
    a comment contributes nothing. *)
Fixpoint preorder (n : Node) : list RedditComment.t :=
  match n with
  | CommentNode fields replies =>
      comment_of fields ::
        match replies with
        | Some children => flat_map preorder children
        | None => []
        end
  | PlaceholderNode _ _ => []
  end.

Definition flatten (forest : list Node) : list RedditComment.t :=
  flat_map preorder forest.

(** ** Sample inputs *)

(** The thread of the specification's example: A has the replies B then C,
    and B has the reply D; a "more" placeholder closes the replies of A. *)
Definition named (name : string) : list (string * value) :=
  [("id", JStr name); ("permalink", JStr ("/r/test/comments/1/x/" ++ name))].

Definition thread_ABDC : list Node :=
  [CommentNode (named "A")
     (Some [CommentNode (named "B") (Some [CommentNode (named "D") None]);
            CommentNode (named "C") None])].

Definition thread_with_placeholders : list Node :=
  [PlaceholderNode "more" (JObj [("count", JNum 3)]);
   CommentNode (named "A")
     (Some [CommentNode (named "B")
              (Some [PlaceholderNode "more" JNull; CommentNode (named "D") None]);
            PlaceholderNode "more" (JObj []);
            CommentNode (named "C") None])].

Definition dataless_comment : value :=
  JObj [("kind", JStr "t1"); ("data", JNull);
        ("replies", JObj [("data", JObj [("children", JArr [JNull])])])].

Definition post_payload (thumbnail : string) : value :=
  JObj [("id", JStr "1"); ("title", JStr "x"); ("permalink", JStr "/r/test/comments/1/x");
        ("thumbnail", JStr thumbnail)].

Definition subreddit_payload (url : value) : value :=
  JObj [("display_name", JStr "rocq"); ("title", JStr "The Rocq Prover");
        ("url", url); ("over18", JBool false)].

Definition config_with (username password refreshToken accessToken : option string)
  : Config.t :=
  {| Config.clientId := "id";
     Config.clientSecret := "secret";
     Config.userAgent := "reddit-mcp-server/1.0.0";
     Config.username := username;
     Config.password := password;
     Config.refreshToken := refreshToken;
     Config.accessToken := accessToken |}.

Definition token_reply (token : string) (lifetime : Z) : Response :=
  {| status := 200;
     statusText := "OK";
     payload := Some (JObj [("access_token", JStr token);
                            ("token_type", JStr "bearer");
                            ("expires_in", JNum lifetime)]) |}.

Definition listing_reply (children : list value) : Response :=
  {| status := 200;
     statusText := "OK";
     payload := Some (JObj [("kind", JStr "Listing");
                            ("data", JObj [("children", JArr children)])]) |}.

Definition rejection (status : Z) (statusText : string) : Response :=
  {| status := status; statusText := statusText; payload := None |}.

(** A remote side that answers the token endpoint with [auth] and the API
    host with [api], under a clock that starts at [clock] milliseconds and
    advances by one at each read. *)
Definition remote (auth api : Response) (clock : Z) : Env :=
  {| now := fun k => clock + Z.of_nat k;
     respond := fun _ req => Some (if String.eqb (url req) authUrl then auth else api);
     StringToNumber := fun _ => NaN |}.

Definition sample_remote_at (clock : Z) : Env :=
  remote (token_reply "fresh" 3600) (listing_reply []) clock.

Definition sample_remote : Env := sample_remote_at 1700000000000.

Definition config_anonymous : Config.t := config_with None None None None.

Definition config_presupplied : Config.t := config_with None None None (Some "tok").

Definition config_everything : Config.t :=
  config_with (Some "alice") (Some "hunter2") (Some "r3fresh/tok") None.

(** ** What a method does with the payload

    The part of each public method after [makeRequest]: it touches neither
    the session nor the network. *)

Definition decode (q : Query) (data : value) : Outcome Entity :=
  match q with
  | GetSubredditPosts _ _ _ | GetUserPosts _ _ _ | SearchPosts _ _ _ _ _ =>
      (posts <~ listing mapPost data ;; Ok (Posts posts))%outcome
  | GetPost _ =>
      (post <~ (first <~ at_index data 0 ;;
                d <~ get first "data" ;;
                children <~ get d "children" ;;
                child <~ at_index children 0 ;;
                raw <~ get child "data" ;;
                mapPost raw) ;;
       Ok (Post post))%outcome
  | GetPostComments _ _ =>
      (comments <~ (second <~ at_index data 1 ;;
                    if truthy second then
                      d <~ get second "data" ;;
                      if truthy d then
                        children <~ get d "children" ;;
                        if truthy children then extractComments children []
                        else Ok []
                      else Ok []
                    else Ok []) ;;
       Ok (Comments comments))%outcome
  | GetSubredditInfo _ =>
      (sub <~ (d <~ get data "data" ;; mapSubreddit d) ;; Ok (Subreddit sub))%outcome
  | GetUserInfo _ =>
      (user <~ (d <~ get data "data" ;; mapUser d) ;; Ok (User user))%outcome
  | GetUserComments _ _ _ =>
      (comments <~ listing mapComment data ;; Ok (Comments comments))%outcome
  | SearchSubreddits _ _ =>
      (subs <~ listing mapSubreddit data ;; Ok (Subreddits subs))%outcome
  end.

(** The errors the client and the run time raise, as opposed to those of
    the dispatcher ([ZodError], [ToolNotFound]) and to the fuel of the
    embedding. *)
Definition is_runtime_error (e : Error) : bool :=
  match e with
  | JsError _ | TypeError | SyntaxError | FetchError => true
  | RangeError | ZodError | ToolNotFound _ => false
  end.

(** [v == null]: null or undefined. *)
Definition is_nullish (v : value) : bool :=
  match v with
  | JNull | JUndefined => true
  | _ => false
  end.

(** [data[key]] on a value that is neither null nor undefined. *)
Definition property (data : value) (key : string) : value :=
  match data with
  | JObj props => lookup key props
  | _ => JUndefined
  end.

(** A value whose conversion to a primitive cannot throw: anything but an
    object or an array. *)
Definition is_primitive (v : value) : bool :=
  match v with
  | JArr _ | JObj _ => false
  | _ => true
  end.

(** A value that a template literal prints as [to_string] does: a
    primitive, a number being an integer up to 2^53, which prints in plain
    decimal. *)
Definition is_scalar (v : value) : bool :=
  match v with
  | JNum n => Z.abs n <=? 2 ^ 53
  | _ => is_primitive v
  end.

(** A payload of a post that has nothing but an id. *)
Definition bare_post : value := JObj [("id", JStr "t3x")].

(** A listing of two "more" placeholders and a node without a kind. *)
Definition placeholders_only : list value :=
  [JObj [("kind", JStr "more"); ("data", JObj [("count", JNum 12)])];
   JObj [("kind", JStr "more"); ("data", JNull)];
   JObj [("data", JObj [("id", JStr "x")])]].

Definition config_password : Config.t :=
  config_with (Some "alice") (Some "p&ss word") None None.

(** A remote side whose token endpoint does not answer at all. *)
Definition unreachable (clock : Z) : Env :=
  {| now := fun k => clock + Z.of_nat k;
     respond := fun _ _ => None;
     StringToNumber := fun _ => NaN |}.

(** A session that holds the token "cached", good until [expiry]. *)
Definition cached_session (expiry : Z) : World :=
  {| this := {| accessToken := JStr "cached"; tokenExpiry := Num expiry |};
     reads := O;
     log := [] |}.

(** ** The advertised tools (the ListTools handler of src/index.ts) *)

Module JsonSchema.
Record Property : Type := {
  type : string;
  description : string;
  enum : option (list string);
  minimum : option Z;
  maximum : option Z;
  default : option value
}.

Record Tool : Type := {
  name : string;
  summary : string;   (* the description of the tool *)
  properties : list (string * Property);
  required : list string
}.
End JsonSchema.

Definition string_property (description : string) : JsonSchema.Property :=
  {| JsonSchema.type := "string";
     JsonSchema.description := description;
     JsonSchema.enum := None;
     JsonSchema.minimum := None;
     JsonSchema.maximum := None;
     JsonSchema.default := None |}.

Definition enum_property (options : list string) (description default : string)
  : JsonSchema.Property :=
  {| JsonSchema.type := "string";
     JsonSchema.description := description;
     JsonSchema.enum := Some options;
     JsonSchema.minimum := None;
     JsonSchema.maximum := None;
     JsonSchema.default := Some (JStr default) |}.

Definition limit_property (description : string) : JsonSchema.Property :=
  {| JsonSchema.type := "number";
     JsonSchema.description := description;
     JsonSchema.enum := None;
     JsonSchema.minimum := Some 1;
     JsonSchema.maximum := Some 100;
     JsonSchema.default := Some (JNum 25) |}.

(** The [tools] array the ListTools handler returns. *)
Definition ListTools : list JsonSchema.Tool :=
  [ {| JsonSchema.name := "get_subreddit_posts";
       JsonSchema.summary := "Get posts from a specific subreddit";
       JsonSchema.properties :=
         [("subreddit", string_property "Name of the subreddit (without r/ prefix)");
          ("sort", enum_property ["hot"; "new"; "top"; "rising"]
                     "Sort order for posts" "hot");
          ("limit", limit_property "Number of posts to retrieve (1-100)")];
       JsonSchema.required := ["subreddit"] |};
    {| JsonSchema.name := "get_post";
       JsonSchema.summary := "Get details of a specific Reddit post";
       JsonSchema.properties := [("postId", string_property "Reddit post ID")];
       JsonSchema.required := ["postId"] |};
    {| JsonSchema.name := "get_post_comments";
       JsonSchema.summary := "Get comments from a Reddit post";
       JsonSchema.properties :=
         [("postId", string_property "Reddit post ID");
          ("sort", enum_property ["best"; "top"; "new"; "controversial"; "old"]
                     "Sort order for comments" "best")];
       JsonSchema.required := ["postId"] |};
    {| JsonSchema.name := "get_subreddit_info";
       JsonSchema.summary := "Get information about a subreddit";
       JsonSchema.properties :=
         [("subreddit", string_property "Name of the subreddit (without r/ prefix)")];
       JsonSchema.required := ["subreddit"] |};
    {| JsonSchema.name := "get_user_info";
       JsonSchema.summary := "Get information about a Reddit user";
       JsonSchema.properties :=
         [("username", string_property "Reddit username (without u/ prefix)")];
       JsonSchema.required := ["username"] |};
    {| JsonSchema.name := "get_user_posts";
       JsonSchema.summary := "Get posts submitted by a user";
       JsonSchema.properties :=
         [("username", string_property "Reddit username (without u/ prefix)");
          ("sort", enum_property ["hot"; "new"; "top"] "Sort order for posts" "new");
          ("limit", limit_property "Number of posts to retrieve (1-100)")];
       JsonSchema.required := ["username"] |};
    {| JsonSchema.name := "get_user_comments";
       JsonSchema.summary := "Get comments made by a user";
       JsonSchema.properties :=
         [("username", string_property "Reddit username (without u/ prefix)");
          ("sort", enum_property ["hot"; "new"; "top"] "Sort order for comments" "new");
          ("limit", limit_property "Number of comments to retrieve (1-100)")];
       JsonSchema.required := ["username"] |};
    {| JsonSchema.name := "search_posts";
       JsonSchema.summary := "Search for Reddit posts";
       JsonSchema.properties :=
         [("query", string_property "Search query");
          ("subreddit",
           string_property "Optional: restrict search to specific subreddit");
          ("sort", enum_property ["relevance"; "hot"; "top"; "new"; "comments"]
                     "Sort order for search results" "relevance");
          ("limit", limit_property "Number of results to retrieve (1-100)")];
       JsonSchema.required := ["query"] |};
    {| JsonSchema.name := "search_subreddits";
       JsonSchema.summary := "Search for subreddits";
       JsonSchema.properties :=
         [("query", string_property "Search query for subreddit names/descriptions");
          ("limit", limit_property "Number of results to retrieve (1-100)")];
       JsonSchema.required := ["query"] |} ].

(** ** What validation guarantees of the arguments of a method *)

Definition is_name (v : value) : bool :=
  match v with
  | JStr s => negb (String.eqb s "")
  | _ => false
  end.

Definition is_sort (options : list string) (v : value) : bool :=
  match v with
  | JStr s => existsb (String.eqb s) options
  | _ => false
  end.

Definition is_limit (v : value) : bool :=
  match v with
  | JNum n => (1 <=? n) && (n <=? 100)
  | _ => false
  end.

Definition is_optional_string (v : value) : bool :=
  match v with
  | JUndefined | JStr _ => true
  | _ => false
  end.

Definition is_undefined (v : value) : bool :=
  match v with
  | JUndefined => true
  | _ => false
  end.


(** An environment variable that is not set, or set to the empty string. *)
Definition unset (o : option string) : bool :=
  match o with
  | Some s => String.eqb s ""
  | None => true
  end.

(** The keys that some schema of the dispatcher declares. *)
Definition declared_keys : list string :=
  ["subreddit"; "sort"; "limit"; "postId"; "username"; "query"].

(** The error code the [catch] block of the handler gives an error. *)
Definition code_of (e : Error) : ErrorCode :=
  match e with
  | ZodError => InvalidParams
  | _ => InternalError
  end.

(** A thread response that holds the post but no second listing. *)
Definition thread_without_listing : Response :=
  {| status := 200;
     statusText := "OK";
     payload := Some (JArr [JObj [("kind", JStr "Listing");
                                  ("data", JObj [("children", JArr [])])]]) |}.

(** ** The advertised input schemas, read as JSON Schema *)

(** A present value against a property: its type, its enumeration, its
    bounds. *)
Definition property_accepts (p : JsonSchema.Property) (v : value) : bool :=
  match v with
  | JStr s =>
      String.eqb (JsonSchema.type p) "string"
      && match JsonSchema.enum p with
         | Some options => existsb (String.eqb s) options
         | None => true
         end
  | JNum n =>
      String.eqb (JsonSchema.type p) "number"
      && match JsonSchema.minimum p with Some m => m <=? n | None => true end
      && match JsonSchema.maximum p with Some m => n <=? m | None => true end
  | _ => false
  end.

(** A property may be absent. *)
Definition property_allows (p : JsonSchema.Property) (v : value) : bool :=
  match v with
  | JUndefined => true
  | _ => property_accepts p v
  end.

(** [arguments] is an object that has every required key and whose declared
    properties, where present, are accepted; other keys are free. *)
Definition conforms (tool : JsonSchema.Tool) (arguments : value) : bool :=
  match arguments with
  | JObj props =>
      forallb (fun key => negb (is_undefined (lookup key props)))
        (JsonSchema.required tool)
      && forallb (fun kp => property_allows (snd kp) (lookup (fst kp) props))
           (JsonSchema.properties tool)
  | _ => false
  end.

(** Every required value is a non-empty string. *)
Definition required_are_names (tool : JsonSchema.Tool) (arguments : value) : bool :=
  match arguments with
  | JObj props => forallb (fun key => is_name (lookup key props)) (JsonSchema.required tool)
  | _ => false
  end.

(** The arguments with each advertised default filled in where the
    property is absent. *)
Definition with_defaults (tool : JsonSchema.Tool) (arguments : value) : value :=
  match arguments with
  | JObj props =>
      JObj (flat_map (fun kp =>
                        match JsonSchema.default (snd kp) with
                        | Some d =>
                            if is_undefined (lookup (fst kp) props)
                            then [(fst kp, d)] else []
                        | None => []
                        end) (JsonSchema.properties tool) ++ props)%list
  | _ => arguments
  end.

Definition find_tool (name : string) : option JsonSchema.Tool :=
  find (fun tool => String.eqb name (JsonSchema.name tool)) ListTools.

Definition is_ok {A} (o : Outcome A) : bool :=
  match o with
  | Ok _ => true
  | Throw _ => false
  end.

(** A granted exchange whose body reports no lifetime. *)
Definition token_reply_without_lifetime (token : string) : Response :=
  {| status := 200;
     statusText := "OK";
     payload := Some (JObj [("access_token", JStr token)]) |}.


(** A step on the accumulator that appends a fixed list, or throws a fixed
    error, whatever the accumulator held. *)
Definition appends (step : list RedditComment.t -> Outcome (list RedditComment.t)) : Prop :=
  (exists added, forall acc, step acc = Ok (acc ++ added)%list)
  \/ (forall acc, step acc = Throw TypeError)
  \/ (forall acc, step acc = Throw RangeError).

(** * Properties *)

(** ** The flattener: fuel and unfolding *)

Lemma depth_item (x : value) (items : list value) :
  In x items -> (depth x < depth (JArr items))%nat.
Proof.
  induction items as [|y rest IH]; intros Hin; [destruct Hin|].
  simpl in *. destruct Hin as [-> | Hin]; [lia|].
  specialize (IH Hin). lia.
Qed.

Lemma depth_lookup (key : string) (props : list (string * value)) :
  (depth (lookup key props) <= depth (JObj props))%nat.
Proof.
  induction props as [|[k v] rest IH]; simpl in *; [lia|].
  destruct (String.eqb k key); lia.
Qed.

Lemma depth_get (v x : value) (key : string) :
  get v key = Ok x -> (depth x <= depth v)%nat.
Proof.
  destruct v; simpl; intros H; inversion H; subst; simpl; try lia.
  apply depth_lookup.
Qed.

Lemma for_each_ext {A} (b1 b2 : value -> A -> Outcome A) (items : list value) :
  (forall child acc, In child items -> b1 child acc = b2 child acc) ->
  forall acc, for_each b1 items acc = for_each b2 items acc.
Proof.
  induction items as [|child rest IH]; intros Hext acc; simpl; [reflexivity|].
  rewrite (Hext child acc (or_introl eq_refl)).
  destruct (b2 child acc) as [acc'|e]; simpl; [|reflexivity].
  apply IH. intros ch a Hin. apply Hext. right. exact Hin.
Qed.

Lemma for_each_app {A} (body : value -> A -> Outcome A) (l1 l2 : list value) (acc : A) :
  for_each body (l1 ++ l2)%list acc
  = obind (for_each body l1 acc) (for_each body l2).
Proof.
  revert acc. induction l1 as [|child rest IH]; intros acc; simpl; [reflexivity|].
  destruct (body child acc) as [acc'|e]; simpl; [apply IH | reflexivity].
Qed.

(** [visit] calls [self] only on a value nested inside the child. *)
Lemma visit_ext (s1 s2 : value -> list RedditComment.t -> Outcome (list RedditComment.t))
  (child : value) (comments : list RedditComment.t) :
  (forall v acc, (depth v <= depth child)%nat -> s1 v acc = s2 v acc) ->
  visit s1 child comments = visit s2 child comments.
Proof.
  intros Hext. unfold visit.
  destruct (get child "kind") as [kind|e] eqn:Hkind; simpl; [|reflexivity].
  destruct (strict_eq_str kind "t1"); [|reflexivity].
  destruct (get child "data") as [data|e] eqn:Hdata; simpl; [|reflexivity].
  destruct (truthy data); [|reflexivity].
  destruct (mapComment data) as [c|e]; simpl; [|reflexivity].
  destruct (get data "replies") as [replies|e] eqn:Hreplies; simpl; [|reflexivity].
  destruct (truthy replies); [|reflexivity].
  destruct (get replies "data") as [rdata|e] eqn:Hrdata; simpl; [|reflexivity].
  destruct (truthy rdata); [|reflexivity].
  destruct (get rdata "children") as [rchildren|e] eqn:Hrc; simpl; [|reflexivity].
  destruct (truthy rchildren); [|reflexivity].
  apply Hext.
  apply depth_get in Hdata, Hreplies, Hrdata, Hrc. lia.
Qed.

Lemma visit_character (self : value -> list RedditComment.t -> Outcome (list RedditComment.t))
  (s : string) (child : value) (comments : list RedditComment.t) :
  In child (characters s) -> visit self child comments = Ok comments.
Proof.
  unfold characters. rewrite in_map_iff. intros [c [<- _]]. reflexivity.
Qed.

(** Any fuel above the depth of the payload gives the same answer. *)
Lemma fuel_irrelevant (f1 f2 : nat) (children : value) (comments : list RedditComment.t) :
  (depth children < f1)%nat -> (depth children < f2)%nat ->
  extractComments_fuel f1 children comments = extractComments_fuel f2 children comments.
Proof.
  revert f2 children comments.
  induction f1 as [|f1 IH]; intros [|f2] children comments H1 H2; try lia.
  simpl. destruct children; try reflexivity; simpl.
  - apply for_each_ext. intros child acc Hin.
    rewrite (visit_character _ s child acc Hin).
    rewrite (visit_character _ s child acc Hin). reflexivity.
  - apply for_each_ext. intros child acc Hin.
    apply visit_ext. intros v a Hv.
    pose proof (depth_item child items Hin).
    apply IH; lia.
Qed.

(** The loop of the source, with the recursive call at full strength. *)
Lemma extractComments_array (items : list value) (comments : list RedditComment.t) :
  extractComments (JArr items) comments
  = for_each (visit extractComments) items comments.
Proof.
  unfold extractComments at 1. cbn [extractComments_fuel for_of].
  apply for_each_ext. intros child acc Hin.
  apply visit_ext. intros v a Hv.
  pose proof (depth_item child items Hin).
  unfold extractComments. apply fuel_irrelevant; lia.
Qed.

(** The flattener never runs out of fuel. *)
Lemma extractComments_fuel_enough (fuel : nat) (children : value)
  (comments : list RedditComment.t) :
  (depth children < fuel)%nat ->
  extractComments_fuel fuel children comments <> Throw RangeError.
Proof.
  revert children comments.
  induction fuel as [|fuel IH]; intros children comments Hd; [lia|].
  assert (Hloop : forall items acc,
           (forall child, In child items -> (depth child < fuel)%nat
                                          \/ exists s, In child (characters s)) ->
           for_each (visit (extractComments_fuel fuel)) items acc <> Throw RangeError).
  { induction items as [|child rest IHl]; intros acc Hdepth; simpl; [discriminate|].
    destruct (visit (extractComments_fuel fuel) child acc) as [acc'|e] eqn:Hv; simpl.
    - apply IHl. intros ch Hin. apply Hdepth. right. exact Hin.
    - intros Heq. injection Heq as ->.
      destruct (Hdepth child (or_introl eq_refl)) as [Hc | [s Hs]].
      + revert Hv. unfold visit.
        destruct child; simpl; try discriminate.
        destruct (strict_eq_str (lookup "kind" props) "t1"); [|discriminate].
        destruct (truthy (lookup "data" props)); [|discriminate].
        destruct (mapComment (lookup "data" props)) as [c|e] eqn:Hm; simpl.
        2:{ intros [= ->]. revert Hm. unfold mapComment.
            destruct (lookup "data" props); simpl; discriminate. }
        destruct (get (lookup "data" props) "replies") as [replies|e] eqn:Hr; simpl.
        2:{ intros [= ->]. destruct (lookup "data" props); simpl in Hr; discriminate. }
        destruct (truthy replies) eqn:Ht; [|discriminate].
        destruct (get replies "data") as [rdata|e] eqn:Hrd; simpl.
        2:{ intros [= ->]. destruct replies; simpl in Hrd; discriminate. }
        destruct (truthy rdata) eqn:Ht'; [|discriminate].
        destruct (get rdata "children") as [rc|e] eqn:Hrc; simpl.
        2:{ intros [= ->]. destruct rdata; simpl in Hrc; discriminate. }
        destruct (truthy rc); [|discriminate].
        apply IH.
        pose proof (depth_lookup "data" props).
        apply depth_get in Hr, Hrd, Hrc. lia.
      + rewrite (visit_character _ s child acc Hs) in Hv. discriminate. }
  simpl. destruct children; simpl; try discriminate.
  - apply Hloop. intros child Hin. right. exists s. exact Hin.
  - apply Hloop. intros child Hin. left.
    pose proof (depth_item child items Hin). lia.
Qed.

Lemma extractComments_never_overflows (children : value)
  (comments : list RedditComment.t) :
  extractComments children comments <> Throw RangeError.
Proof.
  unfold extractComments. apply extractComments_fuel_enough. lia.
Qed.

(** ** The flattener against the pre-order of the thread *)

Lemma Node_induction (P : Node -> Prop) :
  (forall fields children, Forall P children -> P (CommentNode fields (Some children))) ->
  (forall fields, P (CommentNode fields None)) ->
  (forall kind data, P (PlaceholderNode kind data)) ->
  forall n, P n.
Proof.
  intros Hlisting Hleaf Hother.
  fix IH 1. intros [fields [children|] | kind data].
  - apply Hlisting. induction children as [|c cs IHcs]; constructor.
    + apply IH.
    + exact IHcs.
  - apply Hleaf.
  - apply Hother.
Qed.

Section PreOrder.
Variable self : value -> list RedditComment.t -> Outcome (list RedditComment.t).

Lemma visit_listing (fields : list (string * value)) (items : list value)
  (comments : list RedditComment.t) :
  visit self
    (JObj [("kind", JStr "t1");
           ("data", JObj (("replies",
                           JObj [("kind", JStr "Listing");
                                 ("data", JObj [("children", JArr items)])]) :: fields))])
    comments
  = self (JArr items) (comments ++ [comment_of fields])%list.
Proof. reflexivity. Qed.

Lemma visit_leaf (fields : list (string * value)) (comments : list RedditComment.t) :
  visit self (encode (CommentNode fields None)) comments
  = Ok (comments ++ [comment_of fields])%list.
Proof. reflexivity. Qed.

Lemma visit_placeholder (kind : string) (data : value) (comments : list RedditComment.t) :
  String.eqb kind "t1" = false ->
  visit self (encode (PlaceholderNode kind data)) comments = Ok comments.
Proof.
  intros Hkind. unfold visit. simpl. rewrite Hkind. reflexivity.
Qed.

(** Once every node of a forest is visited in pre-order, so is the forest. *)
Lemma for_each_forest (forest : list Node) :
  Forall (fun n => well_formed n = true ->
                   forall comments,
                     visit self (encode n) comments = Ok (comments ++ preorder n)%list)
         forest ->
  forallb well_formed forest = true ->
  forall comments,
    for_each (visit self) (map encode forest) comments
    = Ok (comments ++ flatten forest)%list.
Proof.
  induction 1 as [|n rest Hn _ IH]; intros Hwf comments; simpl.
  - rewrite app_nil_r. reflexivity.
  - simpl in Hwf. apply andb_true_iff in Hwf as [Hwn Hwrest].
    rewrite (Hn Hwn). simpl. rewrite (IH Hwrest).
    unfold flatten. rewrite app_assoc. reflexivity.
Qed.
End PreOrder.

Lemma visit_preorder (n : Node) :
  well_formed n = true ->
  forall comments,
    visit extractComments (encode n) comments = Ok (comments ++ preorder n)%list.
Proof.
  induction n as [fields children IH | fields | kind data] using Node_induction;
    intros Hwf comments.
  - cbn [encode]. rewrite visit_listing, extractComments_array.
    rewrite (for_each_forest _ children IH Hwf).
    cbn [preorder]. unfold flatten. rewrite <- app_assoc. reflexivity.
  - apply visit_leaf.
  - simpl in Hwf. apply negb_true_iff in Hwf.
    rewrite (visit_placeholder _ kind data comments Hwf).
    simpl. rewrite app_nil_r. reflexivity.
Qed.

Lemma extractComments_flatten (forest : list Node) (comments : list RedditComment.t) :
  forallb well_formed forest = true ->
  extractComments (JArr (map encode forest)) comments
  = Ok (comments ++ flatten forest)%list.
Proof.
  intros Hwf. rewrite extractComments_array.
  apply for_each_forest; [|exact Hwf].
  apply Forall_forall. intros n _. apply visit_preorder.
Qed.

(** C6. The flattener is the depth-first pre-order traversal of the thread:
    on the payload of any forest of comment and placeholder nodes it returns
    (appended to what the accumulator held) each comment followed by the
    flattening of its replies, siblings in their order, placeholders
    contributing nothing; and on the thread where A has the replies B then C
    and B has the reply D the output is exactly A, B, D, C. *)
Theorem flattener_is_preorder (forest : list Node) (comments : list RedditComment.t) :
  forallb well_formed forest = true ->
  extractComments (JArr (map encode forest)) comments
  = Ok (comments ++ flatten forest)%list
  /\ (forall (fields : list (string * value)) (children siblings : list Node),
         flatten (CommentNode fields (Some children) :: siblings)
         = (comment_of fields :: flatten children ++ flatten siblings)%list)
  /\ (forall (kind : string) (data : value) (before after : list Node),
         flatten (before ++ PlaceholderNode kind data :: after)%list
         = flatten (before ++ after)%list)
  /\ extractComments (JArr (map encode thread_ABDC)) []
     = Ok [comment_of (named "A"); comment_of (named "B");
           comment_of (named "D"); comment_of (named "C")].
Proof.
  intros Hwf. split; [|split; [|split]].
  - apply extractComments_flatten. exact Hwf.
  - intros fields children siblings. reflexivity.
  - intros kind data before after. unfold flatten.
    rewrite !flat_map_app. reflexivity.
  - rewrite extractComments_flatten; reflexivity.
Qed.

Lemma flattener_is_preorder_witness :
  forallb well_formed thread_with_placeholders = true
  /\ extractComments (JArr (map encode thread_with_placeholders)) []
     = Ok [comment_of (named "A"); comment_of (named "B");
           comment_of (named "D"); comment_of (named "C")].
Proof.
  split; [reflexivity|].
  exact (proj1 (flattener_is_preorder thread_with_placeholders [] eq_refl)).
Defined.

(** C10. In the array handed to the flattener, an element of kind 't1' whose
    data is absent or null is passed over: alone it leaves the accumulator
    as it was and throws nothing; among any siblings the result is the one
    of the array without it; and among the nodes of a thread the result is
    the accumulator followed by the comments of the siblings before it and
    then of the siblings after it, each flattened in pre-order, so the
    remaining siblings are processed in their original order and nothing
    below the element is visited. *)
Theorem comment_without_data_is_skipped
  (before after : list value) (siblings_before siblings_after : list Node)
  (child : value) (comments : list RedditComment.t) :
  get child "kind" = Ok (JStr "t1") ->
  get child "data" = Ok JUndefined \/ get child "data" = Ok JNull ->
  forallb well_formed siblings_before = true ->
  forallb well_formed siblings_after = true ->
  extractComments (JArr [child]) comments = Ok comments
  /\ extractComments (JArr (before ++ child :: after)%list) comments
     = extractComments (JArr (before ++ after)%list) comments
  /\ extractComments
       (JArr (map encode siblings_before ++ child :: map encode siblings_after)%list)
       comments
     = Ok (comments ++ flatten siblings_before ++ flatten siblings_after)%list.
Proof.
  intros Hkind Hdata Hbefore Hafter.
  assert (Hskip : forall acc, visit extractComments child acc = Ok acc).
  { intros acc. unfold visit. rewrite Hkind. simpl.
    destruct Hdata as [-> | ->]; reflexivity. }
  assert (Hrelative : forall l1 l2,
             extractComments (JArr (l1 ++ child :: l2)%list) comments
             = extractComments (JArr (l1 ++ l2)%list) comments).
  { intros l1 l2. rewrite !extractComments_array, !for_each_app.
    destruct (for_each (visit extractComments) l1 comments) as [acc|e]; simpl;
      [|reflexivity].
    rewrite Hskip. reflexivity. }
  split; [|split].
  - rewrite extractComments_array. simpl. rewrite Hskip. reflexivity.
  - apply Hrelative.
  - rewrite Hrelative, <- map_app, extractComments_flatten.
    + unfold flatten. rewrite flat_map_app. reflexivity.
    + rewrite forallb_app, Hbefore, Hafter. reflexivity.
Qed.

Lemma comment_without_data_is_skipped_witness :
  extractComments (JArr [dataless_comment]) [] = Ok []
  /\ extractComments
       (JArr (map encode thread_ABDC ++ dataless_comment
                :: map encode thread_with_placeholders)%list) []
     = Ok [comment_of (named "A"); comment_of (named "B");
           comment_of (named "D"); comment_of (named "C");
           comment_of (named "A"); comment_of (named "B");
           comment_of (named "D"); comment_of (named "C")].
Proof.
  destruct (comment_without_data_is_skipped [] [] thread_ABDC thread_with_placeholders
              dataless_comment [] eq_refl (or_intror eq_refl) eq_refl eq_refl)
    as [Halone [_ Hsiblings]].
  split; [exact Halone | exact Hsiblings].
Defined.

(** ** The entity mappers *)

Lemma get_defined (data v : value) (key key' : string) :
  get data key = Ok v -> get data key' = Ok (match data with
                                             | JObj props => lookup key' props
                                             | _ => JUndefined
                                             end).
Proof. destruct data; simpl; intros H; try discriminate; reflexivity. Qed.

(** C8. The thumbnail of a mapped post is absent (undefined, never the empty
    string) when the raw thumbnail is the string "self" or "default", and is
    exactly the raw value otherwise; a raw string other than the two
    sentinels is therefore present, unchanged. *)
Theorem thumbnail_normalization (data raw : value) :
  get data "thumbnail" = Ok raw ->
  exists post,
    mapPost data = Ok post
    /\ (raw = JStr "self" \/ raw = JStr "default" ->
        RedditPost.thumbnail post = JUndefined)
    /\ (raw <> JStr "self" -> raw <> JStr "default" ->
        RedditPost.thumbnail post = raw)
    /\ (forall s, raw = JStr s -> s <> "self" -> s <> "default" ->
        RedditPost.thumbnail post = JStr s /\ RedditPost.thumbnail post <> JUndefined).
Proof.
  intros Hraw. unfold mapPost.
  rewrite !(get_defined data raw "thumbnail" _ Hraw). simpl.
  rewrite (get_defined data raw "thumbnail" "thumbnail" Hraw) in Hraw.
  injection Hraw as Hraw. rewrite Hraw.
  eexists. split; [reflexivity|]. simpl.
  assert (Hother : raw <> JStr "self" -> raw <> JStr "default" ->
                   (if negb (strict_eq_str raw "self") && negb (strict_eq_str raw "default")
                    then raw else JUndefined) = raw).
  { intros Hs Hd. destruct raw; try reflexivity. simpl.
    destruct (String.eqb_spec s "self") as [->|_]; [congruence|].
    destruct (String.eqb_spec s "default") as [->|_]; [congruence|].
    reflexivity. }
  split; [|split].
  - intros [-> | ->]; reflexivity.
  - exact Hother.
  - intros s -> Hs Hd. rewrite Hother by congruence.
    split; [reflexivity | discriminate].
Qed.

Lemma thumbnail_normalization_witness :
  (exists post, mapPost (post_payload "self") = Ok post
                /\ RedditPost.thumbnail post = JUndefined)
  /\ (exists post, mapPost (post_payload "default") = Ok post
                   /\ RedditPost.thumbnail post = JUndefined)
  /\ (exists post, mapPost (post_payload "http://x/y.jpg") = Ok post
                   /\ RedditPost.thumbnail post = JStr "http://x/y.jpg").
Proof.
  split; [|split].
  - destruct (thumbnail_normalization (post_payload "self") (JStr "self") eq_refl)
      as [post [Hmap [Hsentinel _]]].
    exists post. split; [exact Hmap|]. apply Hsentinel. left. reflexivity.
  - destruct (thumbnail_normalization (post_payload "default") (JStr "default") eq_refl)
      as [post [Hmap [Hsentinel _]]].
    exists post. split; [exact Hmap|]. apply Hsentinel. right. reflexivity.
  - destruct (thumbnail_normalization (post_payload "http://x/y.jpg")
                (JStr "http://x/y.jpg") eq_refl)
      as [post [Hmap [_ [_ Hkept]]]].
    exists post. split; [exact Hmap|].
    apply (Hkept "http://x/y.jpg" eq_refl); discriminate.
Defined.

(** C9. The url of a mapped subreddit is the fixed origin followed by "/r/"
    and the display_name of the payload; the url of the payload is never
    read: a payload that differs only in its url maps to the same entity. *)
Theorem subreddit_url_is_synthesized (data other name : value) :
  get data "display_name" = Ok name ->
  (forall key, key <> "url" -> get other key = get data key) ->
  exists sub,
    mapSubreddit data = Ok sub
    /\ RedditSubreddit.url sub = "https://reddit.com" ++ "/r/" ++ to_string name
    /\ mapSubreddit other = Ok sub.
Proof.
  intros Hname Hsame. unfold mapSubreddit.
  rewrite !Hsame by discriminate.
  rewrite !(get_defined data name "display_name" _ Hname). simpl.
  rewrite (get_defined data name "display_name" "display_name" Hname) in Hname.
  injection Hname as Hname. rewrite Hname.
  eexists. split; [reflexivity|]. split; reflexivity.
Qed.

Lemma same_but_url (u v : value) (key : string) :
  key <> "url" -> get (subreddit_payload u) key = get (subreddit_payload v) key.
Proof.
  intros Hkey. unfold subreddit_payload. cbn [get lookup].
  destruct (String.eqb "display_name" key); [reflexivity|].
  destruct (String.eqb "title" key); [reflexivity|].
  destruct (String.eqb_spec "url" key) as [Heq|_]; [congruence|].
  reflexivity.
Qed.

Lemma subreddit_url_is_synthesized_witness :
  exists sub,
    mapSubreddit (subreddit_payload (JStr "/r/rocq/")) = Ok sub
    /\ RedditSubreddit.url sub = "https://reddit.com/r/rocq"
    /\ mapSubreddit (subreddit_payload (JStr "https://evil.example/")) = Ok sub.
Proof.
  exact (subreddit_url_is_synthesized
           (subreddit_payload (JStr "/r/rocq/"))
           (subreddit_payload (JStr "https://evil.example/"))
           (JStr "rocq") eq_refl
           (same_but_url (JStr "https://evil.example/") (JStr "/r/rocq/"))).
Defined.

(** ** The session manager *)

Lemma token_is_fresh_eq (env : Env) (w : World) :
  token_is_fresh env w
  = if truthy (accessToken (this w))
    then (Ok (lt_number (Num (now env (reads w))) (tokenExpiry (this w))),
          {| this := this w; reads := S (reads w); log := log w |})
    else (Ok false, w).
Proof.
  unfold token_is_fresh, bind, read_this.
  destruct (truthy (accessToken (this w))); reflexivity.
Qed.

Lemma token_is_fresh_keeps (env : Env) (w w0 : World) (r : Outcome bool) :
  token_is_fresh env w = (r, w0) -> this w0 = this w /\ log w0 = log w.
Proof.
  rewrite token_is_fresh_eq.
  destruct (truthy (accessToken (this w))); intros [= <- <-]; split; reflexivity.
Qed.

Lemma authenticate_after_check (config : Config.t) (env : Env) (w w0 : World) (fresh : bool) :
  token_is_fresh env w = (Ok fresh, w0) ->
  authenticate config env w
  = if fresh then (Ok tt, w0) else exchange_token config env w0.
Proof.
  intros Hcheck. unfold authenticate, bind. rewrite Hcheck.
  destruct fresh; reflexivity.
Qed.

Lemma exchange_rejected (config : Config.t) (env : Env) (w : World) (res : Response) :
  respond env (length (requests (log w))) (token_request config) = Some res ->
  ok res = false ->
  exchange_token config env w
  = (Throw (JsError ("Authentication failed: " ++ show (status res)
                       ++ " " ++ statusText res)),
     {| this := this w; reads := reads w;
        log := (log w ++ [Fetched (token_request config)])%list |}).
Proof.
  intros Hres Hok. unfold exchange_token, bind, fetch.
  rewrite Hres, Hok. reflexivity.
Qed.

Lemma exchange_granted (config : Config.t) (env : Env) (w : World) (res : Response)
  (data token lifetime : value) :
  respond env (length (requests (log w))) (token_request config) = Some res ->
  ok res = true ->
  payload res = Some data ->
  get data "access_token" = Ok token ->
  get data "expires_in" = Ok lifetime ->
  exchange_token config env w
  = (Ok tt,
     {| this :=
          {| accessToken := token;
             tokenExpiry :=
               fsub
                 (fadd (Num (now env (reads w)))
                    (fmul (to_number (StringToNumber env) lifetime) (Num 1000)))
                 (Num 60000) |};
        reads := S (reads w);
        log := (log w ++ [Fetched (token_request config); Parsed res])%list |}).
Proof.
  intros Hres Hok Hpayload Htoken Hlifetime.
  unfold exchange_token, bind, fetch, json, lift, set_accessToken, Date_now,
    env_StringToNumber, set_tokenExpiry.
  rewrite Hres, Hok. cbn [negb log payload this reads].
  rewrite Hpayload, Htoken, Hlifetime. cbn [this accessToken reads log].
  rewrite <- app_assoc. reflexivity.
Qed.

Lemma requests_app (l1 l2 : list Event) :
  requests (l1 ++ l2)%list = (requests l1 ++ requests l2)%list.
Proof. unfold requests. apply flat_map_app. Qed.

Lemma exchange_requests (config : Config.t) (env : Env) (w : World) :
  requests (log (snd (exchange_token config env w)))
  = (requests (log w) ++ [token_request config])%list.
Proof.
  unfold exchange_token, bind, fetch, json, lift, set_accessToken, Date_now,
    env_StringToNumber, set_tokenExpiry.
  destruct (respond env (length (requests (log w))) (token_request config)) as [res|];
    cbn [snd log]; [|apply requests_app].
  destruct (ok res); cbn [negb]; [|apply requests_app].
  destruct (payload res) as [data|]; cbn [snd log this].
  - destruct (get data "access_token") as [token|e]; cbn [snd log this reads].
    + destruct (get data "expires_in") as [lifetime|e]; cbn [snd log];
        rewrite !requests_app; cbn; rewrite app_nil_r; reflexivity.
    + rewrite !requests_app. cbn. rewrite app_nil_r. reflexivity.
  - rewrite !requests_app. cbn. rewrite app_nil_r. reflexivity.
Qed.

Lemma grant_is_client_credentials (config : Config.t) :
  In ("grant_type", "client_credentials") (grant_params config)
  <-> truthy (optional (Config.refreshToken config)) = false
      /\ truthy (optional (Config.username config))
         && truthy (optional (Config.password config)) = false.
Proof.
  unfold grant_params.
  destruct (truthy (optional (Config.refreshToken config))).
  - split.
    + intros [H | [H | []]]; discriminate.
    + intros [H _]. discriminate.
  - destruct (truthy (optional (Config.username config))
              && truthy (optional (Config.password config))).
    + split.
      * intros [H | [H | [H | []]]]; discriminate.
      * intros [_ H]. discriminate.
    + split.
      * intros _. split; reflexivity.
      * intros _. left. reflexivity.
Qed.

(** C3. A configuration that holds a (non-empty) refresh token, in a session
    whose cached token is not usable, sends exactly one request to the token
    endpoint, and its body is the refresh_token grant with that token,
    whatever username and password are configured; and the
    client_credentials grant is the one chosen exactly when neither a
    refresh token nor both a username and a password are configured. *)
Theorem refresh_token_grant_has_priority
  (config : Config.t) (env : Env) (w w0 : World) (token : string) :
  Config.refreshToken config = Some token ->
  token <> "" ->
  token_is_fresh env w = (Ok false, w0) ->
  grant_params config = [("grant_type", "refresh_token"); ("refresh_token", token)]
  /\ body (token_request config)
     = Some ("grant_type=refresh_token&refresh_token=" ++ form_urlencode token)
  /\ (exists out w',
         authenticate config env w = (out, w')
         /\ requests (log w') = (requests (log w) ++ [token_request config])%list)
  /\ (forall other : Config.t,
         In ("grant_type", "client_credentials") (grant_params other)
         <-> truthy (optional (Config.refreshToken other)) = false
             /\ truthy (optional (Config.username other))
                && truthy (optional (Config.password other)) = false).
Proof.
  intros Hrefresh Hnonempty Hcheck.
  assert (Hparams : grant_params config
                    = [("grant_type", "refresh_token"); ("refresh_token", token)]).
  { unfold grant_params. rewrite Hrefresh. cbn [optional truthy to_string].
    apply String.eqb_neq in Hnonempty. rewrite Hnonempty. reflexivity. }
  split; [exact Hparams|]. split; [|split].
  - unfold token_request. cbn [body]. rewrite Hparams. reflexivity.
  - rewrite (authenticate_after_check config env w w0 false Hcheck).
    destruct (exchange_token config env w0) as [out w'] eqn:Hexchange.
    exists out, w'. split; [reflexivity|].
    pose proof (exchange_requests config env w0) as Hlog.
    rewrite Hexchange in Hlog. cbn [snd] in Hlog. rewrite Hlog.
    destruct (token_is_fresh_keeps env w w0 _ Hcheck) as [_ ->]. reflexivity.
  - intros other. apply grant_is_client_credentials.
Qed.

Lemma refresh_token_grant_has_priority_witness :
  body (token_request config_everything)
  = Some "grant_type=refresh_token&refresh_token=r3fresh%2Ftok"
  /\ requests (log (snd (authenticate config_everything sample_remote
                           (startup config_everything))))
     = [token_request config_everything].
Proof.
  destruct (refresh_token_grant_has_priority config_everything sample_remote
              (startup config_everything) (startup config_everything)
              "r3fresh/tok" eq_refl ltac:(discriminate) eq_refl)
    as [_ [Hbody [[out [w' [Hrun Hlog]]] _]]].
  split; [exact Hbody|].
  rewrite Hrun. exact Hlog.
Defined.





(** ** The request executor *)

Lemma makeRequest_auth_throws (config : Config.t) (ep : string) (env : Env)
  (w w' : World) (e : Error) :
  authenticate config env w = (Throw e, w') ->
  makeRequest config ep env w = (Throw e, w').
Proof.
  intros Hauth. unfold makeRequest, bind. rewrite Hauth. reflexivity.
Qed.

Lemma makeRequest_rejected (config : Config.t) (ep : string) (env : Env)
  (w w1 : World) (res : Response) :
  authenticate config env w = (Ok tt, w1) ->
  respond env (length (requests (log w1)))
    (api_request config (accessToken (this w1)) ep) = Some res ->
  ok res = false ->
  makeRequest config ep env w
  = (Throw (JsError ("Reddit API error: " ++ show (status res)
                       ++ " " ++ statusText res)),
     {| this := this w1; reads := reads w1;
        log := (log w1 ++ [Fetched (api_request config (accessToken (this w1)) ep)])%list |}).
Proof.
  intros Hauth Hres Hok. unfold makeRequest, bind, read_this, fetch.
  rewrite Hauth, Hres, Hok. reflexivity.
Qed.

Lemma Ok_injective {A} (a b : A) : Ok a = Ok b -> a = b.
Proof. intros H. injection H as H. exact H. Qed.

(** A method that reaches [makeRequest] rejects with what it rejects with:
    no method catches. *)
Lemma perform_throws (config : Config.t) (q : Query) (ep : string) (env : Env)
  (w w' : World) (e : Error) :
  endpoint q = Ok ep ->
  makeRequest config ep env w = (Throw e, w') ->
  perform config q env w = (Throw e, w').
Proof.
  intros Hep Hreq.
  destruct q as [subreddit sort limit | postId | postId sort | subreddit | username
                | username sort limit | username sort limit
                | query subreddit sort time limit | query limit];
    cbn [endpoint] in Hep;
    try (apply Ok_injective in Hep; subst ep;
         unfold perform, returning, bind, getSubredditPosts, getPost, getPostComments,
           getSubredditInfo, getUserInfo, getUserPosts, getUserComments,
           searchSubreddits, bind;
         cbv zeta; rewrite Hreq; reflexivity).
  destruct (search_params query subreddit (default_to (JStr "relevance") sort) time
              (default_to (JNum 25) limit)) as [params|e'] eqn:Hparams;
    cbn [obind] in Hep; [|discriminate].
  apply Ok_injective in Hep. subst ep.
  unfold perform, returning, bind, searchPosts, bind, lift. cbv zeta.
  rewrite Hparams, Hreq. reflexivity.
Qed.

(** C5. When the token endpoint answers a token exchange with a status
    outside 200..299, the query that triggered it rejects with the error
    "Authentication failed: <status> <reason>"; the cached token and the
    expiry of the session are what they were, and the exchange was the only
    request sent (it is not retried, and the API host is not called). *)
Theorem rejected_exchange_is_atomic
  (config : Config.t) (q : Query) (ep : string) (env : Env) (w w0 : World)
  (res : Response) :
  endpoint q = Ok ep ->
  token_is_fresh env w = (Ok false, w0) ->
  respond env (length (requests (log w0))) (token_request config) = Some res ->
  ok res = false ->
  exists w',
    authenticate config env w
    = (Throw (JsError ("Authentication failed: " ++ show (status res)
                         ++ " " ++ statusText res)), w')
    /\ perform config q env w
       = (Throw (JsError ("Authentication failed: " ++ show (status res)
                            ++ " " ++ statusText res)), w')
    /\ this w' = this w
    /\ log w' = (log w ++ [Fetched (token_request config)])%list.
Proof.
  intros Hep Hcheck Hres Hok.
  assert (Hauth : authenticate config env w
                  = (Throw (JsError ("Authentication failed: " ++ show (status res)
                                       ++ " " ++ statusText res)),
                     {| this := this w0; reads := reads w0;
                        log := (log w0 ++ [Fetched (token_request config)])%list |})).
  { rewrite (authenticate_after_check config env w w0 false Hcheck).
    apply exchange_rejected; assumption. }
  destruct (token_is_fresh_keeps env w w0 _ Hcheck) as [Hthis Hlog].
  eexists. split; [exact Hauth|]. split; [|split].
  - apply (perform_throws config q ep env w _ _ Hep).
    apply makeRequest_auth_throws. exact Hauth.
  - exact Hthis.
  - cbn [log]. rewrite Hlog. reflexivity.
Qed.

Lemma rejected_exchange_is_atomic_witness :
  exists w',
    perform config_presupplied (GetPost (JStr "abc123"))
      (remote (rejection 401 "Unauthorized") (listing_reply []) 1700000000000)
      (startup config_presupplied)
    = (Throw (JsError "Authentication failed: 401 Unauthorized"), w')
    /\ this w' = {| accessToken := JStr "tok"; tokenExpiry := Num 0 |}
    /\ log w' = [Fetched (token_request config_presupplied)].
Proof.
  destruct (rejected_exchange_is_atomic config_presupplied (GetPost (JStr "abc123"))
              "/comments/abc123"
              (remote (rejection 401 "Unauthorized") (listing_reply []) 1700000000000)
              (startup config_presupplied)
              {| this := constructor config_presupplied; reads := 1; log := [] |}
              (rejection 401 "Unauthorized")
              eq_refl eq_refl eq_refl eq_refl)
    as [w' [_ [Hrun [Hthis Hlog]]]].
  exists w'. split; [exact Hrun|]. split; [exact Hthis | exact Hlog].
Defined.

(** C7. When the API host answers the request of a query with a status
    outside 200..299, the query rejects with the error
    "Reddit API error: <status> <reason>" and returns no entity; the request
    is the last event of the log: the body of the answer is not parsed and
    no second request is sent. *)
Theorem api_error_surfaces
  (config : Config.t) (q : Query) (ep : string) (env : Env) (w w1 : World)
  (res : Response) :
  endpoint q = Ok ep ->
  authenticate config env w = (Ok tt, w1) ->
  respond env (length (requests (log w1)))
    (api_request config (accessToken (this w1)) ep) = Some res ->
  ok res = false ->
  perform config q env w
  = (Throw (JsError ("Reddit API error: " ++ show (status res)
                       ++ " " ++ statusText res)),
     {| this := this w1; reads := reads w1;
        log := (log w1 ++ [Fetched (api_request config (accessToken (this w1)) ep)])%list |}).
Proof.
  intros Hep Hauth Hres Hok.
  apply (perform_throws config q ep env w _ _ Hep).
  apply makeRequest_rejected; assumption.
Qed.

Lemma api_error_surfaces_witness :
  perform config_anonymous
    (GetSubredditPosts (JStr "rocq") (JStr "hot") (JNum 5))
    (remote (token_reply "fresh" 3600) (rejection 503 "Service Unavailable") 1700000000000)
    (startup config_anonymous)
  = (Throw (JsError "Reddit API error: 503 Service Unavailable"),
     {| this := {| accessToken := JStr "fresh"; tokenExpiry := Num 1700003540000 |};
        reads := 1;
        log := [Fetched (token_request config_anonymous);
                Parsed (token_reply "fresh" 3600);
                Fetched (api_request config_anonymous (JStr "fresh")
                           "/r/rocq/hot?limit=5")] |}).
Proof.
  exact (api_error_surfaces config_anonymous
           (GetSubredditPosts (JStr "rocq") (JStr "hot") (JNum 5))
           "/r/rocq/hot?limit=5"
           (remote (token_reply "fresh" 3600) (rejection 503 "Service Unavailable")
              1700000000000)
           (startup config_anonymous)
           {| this := {| accessToken := JStr "fresh"; tokenExpiry := Num 1700003540000 |};
              reads := 1;
              log := [Fetched (token_request config_anonymous);
                      Parsed (token_reply "fresh" 3600)] |}
           (rejection 503 "Service Unavailable")
           eq_refl eq_refl eq_refl eq_refl).
Defined.

(** ** Where the code departs from its documentation *)

(** The constructor stores the pre-supplied token but leaves the expiry at
    0, so the freshness test fails at any clock reading from 1970 on. *)
Lemma startup_token_is_stale (config : Config.t) (env : Env) :
  0 <= now env O ->
  fst (token_is_fresh env (startup config)) = Ok false.
Proof.
  intros Hnow. rewrite token_is_fresh_eq.
  destruct (truthy (accessToken (this (startup config)))); [|reflexivity].
  cbn [fst startup this constructor tokenExpiry reads lt_number].
  apply Z.ltb_ge in Hnow. rewrite Hnow. reflexivity.
Qed.

Lemma first_query_exchanges_token (config : Config.t) (env : Env) :
  0 <= now env O ->
  requests (log (snd (authenticate config env (startup config))))
  = [token_request config].
Proof.
  intros Hnow.
  pose proof (startup_token_is_stale config env Hnow) as Hstale.
  destruct (token_is_fresh env (startup config)) as [r w0] eqn:Hcheck.
  cbn [fst] in Hstale. subst r.
  rewrite (authenticate_after_check config env _ w0 false Hcheck).
  rewrite exchange_requests.
  destruct (token_is_fresh_keeps env _ w0 _ Hcheck) as [_ ->]. reflexivity.
Qed.

(** C1 (the code does otherwise). With a pre-supplied access token "tok" and
    no other credential, the first call of authenticate, at a clock reading
    of 1700000000000 ms, does not reuse the token: it sends the
    client_credentials exchange to the token endpoint and replaces the
    token by the one the endpoint returns. *)
Theorem presupplied_token_is_exchanged_at_first_query :
  accessToken (this (startup config_presupplied)) = JStr "tok"
  /\ body (token_request config_presupplied) = Some "grant_type=client_credentials"
  /\ authenticate config_presupplied sample_remote (startup config_presupplied)
     = (Ok tt,
        {| this := {| accessToken := JStr "fresh"; tokenExpiry := Num 1700003540001 |};
           reads := 2;
           log := [Fetched (token_request config_presupplied);
                   Parsed (token_reply "fresh" 3600)] |}).
Proof.
  split; [reflexivity|]. split; [reflexivity|].
  vm_compute. reflexivity.
Qed.

(** What the [search_posts] tool hands to the method: the parsed limit in
    the place of [time], and no limit. *)
Lemma search_posts_tool_call (arguments : value) (q : Query) :
  tool_call "search_posts" arguments = Ok q ->
  exists query subreddit sort n,
    q = SearchPosts query subreddit sort (JNum n) JUndefined
    /\ 1 <= n <= 100
    /\ (lookup "limit" match arguments with JObj props => props | _ => [] end = JNum n
        \/ lookup "limit" match arguments with JObj props => props | _ => [] end = JUndefined
           /\ n = 25).
Proof.
  unfold tool_call. cbn [String.eqb Ascii.eqb Bool.eqb].
  destruct arguments as [| | | | | |props]; cbn [z_field obind]; try discriminate.
  destruct (z_string_min1 (lookup "query" props)) as [query|e]; cbn [obind];
    [|discriminate].
  destruct (z_string_optional (lookup "subreddit" props)) as [subreddit|e]; cbn [obind];
    [|discriminate].
  destruct (z_enum_default sorts_of_search "relevance" (lookup "sort" props))
    as [sort|e]; cbn [obind]; [|discriminate].
  unfold z_limit.
  destruct (lookup "limit" props) as [| | |n| | |] eqn:Hlimit; cbn [obind];
    try discriminate.
  - intros [= <-]. exists query, subreddit, sort, 25.
    split; [reflexivity|]. split; [lia|]. right. split; reflexivity.
  - destruct ((1 <=? n) && (n <=? 100)) eqn:Hrange; cbn [obind]; [|discriminate].
    intros [= <-]. exists query, subreddit, sort, n.
    apply andb_true_iff in Hrange as [Hlo Hhi].
    apply Z.leb_le in Hlo, Hhi.
    split; [reflexivity|]. split; [lia|]. left. reflexivity.
Qed.

(** The query string of such a call: [limit] is the default 25 and the
    caller's limit travels as [t]. *)
Lemma search_posts_tool_params (query subreddit sort : value) (n : Z) :
  1 <= n <= 100 ->
  search_params query subreddit (default_to (JStr "relevance") sort) (JNum n)
    (default_to (JNum 25) JUndefined)
  = Ok ([("q", to_string query);
         ("sort", to_string (default_to (JStr "relevance") sort));
         ("limit", "25");
         ("type", "link")]
        ++ (if truthy subreddit then [("restrict_sr", "true")] else [])
        ++ [("t", show n)])%list.
Proof.
  intros Hn. unfold search_params. cbn [default_to truthy to_string].
  assert (Hnz : (n =? 0) = false) by (apply Z.eqb_neq; lia).
  rewrite Hnz. reflexivity.
Qed.

(** Called with the limit in its own place and no time window, the method
    itself sends the limit and no [t]. *)
Lemma searchPosts_direct_params (query subreddit sort : value) (n : Z) :
  search_params query subreddit (default_to (JStr "relevance") sort) JUndefined
    (default_to (JNum 25) (JNum n))
  = Ok ([("q", to_string query);
         ("sort", to_string (default_to (JStr "relevance") sort));
         ("limit", show n);
         ("type", "link")]
        ++ (if truthy subreddit then [("restrict_sr", "true")] else []))%list.
Proof.
  unfold search_params. cbn [default_to truthy to_string].
  rewrite app_nil_r. reflexivity.
Qed.

(** C2 (the code does otherwise). The tool call search_posts with the
    query "cats" and the limit 10, and no time window, reaches the method
    with 10 in the place of the time window and no limit; the request sent
    to the API host carries limit=25 and t=10. *)
Theorem search_posts_sends_limit_as_time_window :
  tool_call "search_posts" (JObj [("query", JStr "cats"); ("limit", JNum 10)])
  = Ok (SearchPosts (JStr "cats") JUndefined (JStr "relevance") (JNum 10) JUndefined)
  /\ search_params (JStr "cats") JUndefined (JStr "relevance") (JNum 10) (JNum 25)
     = Ok [("q", "cats"); ("sort", "relevance"); ("limit", "25"); ("type", "link");
           ("t", "10")]
  /\ map url
       (requests
          (log (snd (call_tool config_anonymous "search_posts"
                       (JObj [("query", JStr "cats"); ("limit", JNum 10)])
                       sample_remote (startup config_anonymous)))))
     = [authUrl;
        "https://oauth.reddit.com/search?q=cats&sort=relevance&limit=25&type=link&t=10"].
Proof.
  split; [reflexivity|]. split; [reflexivity|].
  vm_compute. reflexivity.
Qed.

(** * Further properties of the code *)

(** ** Methods as endpoint, request and decoding *)

Lemma wrap_outcome {A B W} (c : Outcome A) (f : A -> B) (w : W) :
  match c with
  | Ok a => (Ok (f a), w)
  | Throw e => (Throw e, w)
  end = (obind c (fun a => Ok (f a)), w).
Proof. destruct c; reflexivity. Qed.

Lemma perform_factors (config : Config.t) (q : Query) (env : Env) (w : World) :
  perform config q env w
  = match endpoint q with
    | Throw e => (Throw e, w)
    | Ok ep =>
        match makeRequest config ep env w with
        | (Ok data, w') => (decode q data, w')
        | (Throw e, w') => (Throw e, w')
        end
    end.
Proof.
  destruct q as [subreddit sort limit | postId | postId sort | subreddit | username
                | username sort limit | username sort limit
                | query subreddit sort time limit | query limit];
    cbn [endpoint decode];
    unfold perform, returning, bind, getSubredditPosts, getPost, getPostComments,
      getSubredditInfo, getUserInfo, getUserPosts, getUserComments, searchPosts,
      searchSubreddits, bind, lift, ret; cbv zeta.
  all: try (match goal with
            | |- context [makeRequest ?c ?ep ?e ?w] =>
                destruct (makeRequest c ep e w) as [[data|err] w']
            end; [apply wrap_outcome | reflexivity]).
  destruct (search_params query subreddit (default_to (JStr "relevance") sort) time
              (default_to (JNum 25) limit)) as [params|e]; cbn [obind]; [|reflexivity].
  destruct (makeRequest config _ env w) as [[data|err] w']; [|reflexivity].
  apply wrap_outcome.
Qed.

(** ** The mappers on incomplete payloads *)

Lemma lookup_missing (key : string) (props : list (string * value)) :
  ~ In key (map fst props) -> lookup key props = JUndefined.
Proof.
  induction props as [|[k v] rest IH]; cbn [lookup map fst In]; [reflexivity|].
  intros Hmissing. destruct (String.eqb_spec k key) as [->|_].
  - exfalso. apply Hmissing. left. reflexivity.
  - apply IH. intros Hin. apply Hmissing. right. exact Hin.
Qed.

(** X1. On a payload that is neither null nor undefined, whose permalink
    and display_name are scalars (string, boolean, null, absent, or an
    integer up to 2^53), each of the four mappers returns its entity, with
    every passed-through field holding the property of the payload of that
    name; the property of a key the payload lacks is undefined, so a missing
    key throws nothing. On null and on undefined all four throw a
    TypeError. *)
Theorem mappers_throw_only_without_payload (data : value) :
  is_nullish data = false ->
  is_scalar (property data "permalink") = true ->
  is_scalar (property data "display_name") = true ->
  mapPost data
  = Ok {| RedditPost.id := property data "id";
          RedditPost.title := property data "title";
          RedditPost.author := property data "author";
          RedditPost.subreddit := property data "subreddit";
          RedditPost.url := property data "url";
          RedditPost.selftext := or_else (property data "selftext") (JStr "");
          RedditPost.created_utc := property data "created_utc";
          RedditPost.score := property data "score";
          RedditPost.num_comments := property data "num_comments";
          RedditPost.permalink :=
            "https://reddit.com" ++ to_string (property data "permalink");
          RedditPost.is_self := property data "is_self";
          RedditPost.domain := property data "domain";
          RedditPost.thumbnail :=
            if negb (strict_eq_str (property data "thumbnail") "self")
               && negb (strict_eq_str (property data "thumbnail") "default")
            then property data "thumbnail" else JUndefined |}
  /\ mapComment data
     = Ok {| RedditComment.id := property data "id";
             RedditComment.author := property data "author";
             RedditComment.body := property data "body";
             RedditComment.created_utc := property data "created_utc";
             RedditComment.score := property data "score";
             RedditComment.permalink :=
               "https://reddit.com" ++ to_string (property data "permalink");
             RedditComment.parent_id := property data "parent_id";
             RedditComment.subreddit := property data "subreddit" |}
  /\ mapSubreddit data
     = Ok {| RedditSubreddit.display_name := property data "display_name";
             RedditSubreddit.title := property data "title";
             RedditSubreddit.description := property data "description";
             RedditSubreddit.subscribers := property data "subscribers";
             RedditSubreddit.created_utc := property data "created_utc";
             RedditSubreddit.public_description := property data "public_description";
             RedditSubreddit.url :=
               "https://reddit.com/r/" ++ to_string (property data "display_name");
             RedditSubreddit.over18 := property data "over18" |}
  /\ mapUser data
     = Ok {| RedditUser.name := property data "name";
             RedditUser.id := property data "id";
             RedditUser.created_utc := property data "created_utc";
             RedditUser.comment_karma := property data "comment_karma";
             RedditUser.link_karma := property data "link_karma";
             RedditUser.is_verified := property data "is_verified";
             RedditUser.has_verified_email := property data "has_verified_email" |}
  /\ (forall props key,
         data = JObj props -> ~ In key (map fst props) ->
         property data key = JUndefined)
  /\ (forall missing,
         is_nullish missing = true ->
         mapPost missing = Throw TypeError
         /\ mapComment missing = Throw TypeError
         /\ mapSubreddit missing = Throw TypeError
         /\ mapUser missing = Throw TypeError).
Proof.
  intros Hdata _ _.
  split; [|split; [|split; [|split; [|split]]]].
  - destruct data; try discriminate Hdata; reflexivity.
  - destruct data; try discriminate Hdata; reflexivity.
  - destruct data; try discriminate Hdata; reflexivity.
  - destruct data; try discriminate Hdata; reflexivity.
  - intros props key -> Hmissing. cbn [property]. apply lookup_missing. exact Hmissing.
  - intros missing Hmissing.
    destruct missing; try discriminate Hmissing; repeat split; reflexivity.
Qed.

Lemma mappers_throw_only_without_payload_witness :
  (exists post, mapPost bare_post = Ok post
                /\ RedditPost.id post = JStr "t3x"
                /\ RedditPost.title post = JUndefined)
  /\ (exists user, mapUser bare_post = Ok user
                   /\ RedditUser.name user = JUndefined).
Proof.
  destruct (mappers_throw_only_without_payload bare_post eq_refl eq_refl eq_refl)
    as [Hpost [_ [_ [Huser _]]]].
  split; eexists; (split; [eassumption|]); split; reflexivity.
Defined.

(** X2. In a mapped post the selftext is the raw one when that is truthy and
    the empty string otherwise, so it is never null or undefined; when the
    raw permalink is a scalar (string, boolean, null, absent, or an integer
    up to 2^53) the permalink is the origin followed by it as a template
    prints it, which for a payload without permalink is the text
    "undefined". *)
Theorem post_selftext_and_permalink (data : value) (post : RedditPost.t) :
  mapPost data = Ok post ->
  is_scalar (property data "permalink") = true ->
  exists raw_selftext raw_permalink,
    get data "selftext" = Ok raw_selftext
    /\ get data "permalink" = Ok raw_permalink
    /\ RedditPost.selftext post
       = (if truthy raw_selftext then raw_selftext else JStr "")
    /\ is_nullish (RedditPost.selftext post) = false
    /\ RedditPost.permalink post = "https://reddit.com" ++ to_string raw_permalink
    /\ (forall p, raw_permalink = JStr p ->
        RedditPost.permalink post = "https://reddit.com" ++ p)
    /\ (raw_permalink = JUndefined ->
        RedditPost.permalink post = "https://reddit.comundefined").
Proof.
  intros Hmap _.
  assert (Hget : forall key, get data key
                             = Ok match data with
                                  | JObj props => lookup key props
                                  | _ => JUndefined
                                  end).
  { intros key. destruct data; try reflexivity; discriminate Hmap. }
  unfold mapPost in Hmap. rewrite !Hget in Hmap. cbn [obind] in Hmap.
  apply Ok_injective in Hmap. subst post. cbn [RedditPost.selftext RedditPost.permalink].
  do 2 eexists. split; [apply Hget|]. split; [apply Hget|].
  split; [reflexivity|]. split; [|split; [reflexivity|split]].
  - unfold or_else.
    destruct (truthy _) eqn:Htruthy; [|reflexivity].
    destruct (match data with JObj props => lookup "selftext" props | _ => JUndefined end);
      try reflexivity; discriminate Htruthy.
  - intros p ->. reflexivity.
  - intros ->. reflexivity.
Qed.

Lemma post_selftext_and_permalink_witness :
  exists post,
    mapPost bare_post = Ok post
    /\ RedditPost.selftext post = JStr ""
    /\ RedditPost.permalink post = "https://reddit.comundefined".
Proof.
  eexists. split; [reflexivity|].
  destruct (post_selftext_and_permalink bare_post _ eq_refl eq_refl)
    as [raw_selftext [raw_permalink [Hs [Hp [Hself [_ [_ [_ Hundef]]]]]]]].
  apply Ok_injective in Hs, Hp. subst raw_selftext raw_permalink.
  split; [exact Hself | exact (Hundef eq_refl)].
Defined.

(** ** Listings *)

Lemma map_children_Forall2 {A} (f : value -> Outcome A) (items : list value) (l : list A) :
  map_children f items = Ok l
  <-> Forall2 (fun child a => exists raw, get child "data" = Ok raw /\ f raw = Ok a)
        items l.
Proof.
  revert l. induction items as [|child rest IH]; intros l; cbn [map_children].
  - split.
    + intros H. apply Ok_injective in H. subst l. constructor.
    + intros H. inversion H. reflexivity.
  - split.
    + destruct (get child "data") as [raw|e] eqn:Hraw; cbn [obind]; [|discriminate].
      destruct (f raw) as [a|e] eqn:Hf; cbn [obind]; [|discriminate].
      destruct (map_children f rest) as [others|e]; cbn [obind]; [|discriminate].
      intros H. apply Ok_injective in H. subst l. constructor.
      * exists raw. split; assumption.
      * apply IH. reflexivity.
    + intros H. inversion H as [|c a r others [raw [Hraw Hf]] Hrest]; subst.
      rewrite Hraw. cbn [obind]. rewrite Hf. cbn [obind].
      apply IH in Hrest. rewrite Hrest. reflexivity.
Qed.

(** X3. [data.data.children.map(...)] returns a list exactly when
    data.data.children is an array of which every element has a data that
    the mapper accepts; the list then has one entity per element, in the
    order of the array. *)
Theorem listing_maps_children_in_order {A} (f : value -> Outcome A)
  (data : value) (l : list A) :
  listing f data = Ok l
  <-> exists d items,
        get data "data" = Ok d
        /\ get d "children" = Ok (JArr items)
        /\ Forall2 (fun child a => exists raw, get child "data" = Ok raw /\ f raw = Ok a)
             items l
        /\ length l = length items.
Proof.
  unfold listing. split.
  - destruct (get data "data") as [d|e]; cbn [obind]; [|discriminate].
    destruct (get d "children") as [children|e] eqn:Hc; cbn [obind]; [|discriminate].
    destruct children; try discriminate.
    intros H. exists d, items. split; [reflexivity|]. split; [exact Hc|].
    apply map_children_Forall2 in H. split; [exact H|].
    symmetry. exact (Forall2_length H).
  - intros [d [items [-> [Hc [H _]]]]]. cbn [obind]. rewrite Hc. cbn [obind].
    apply map_children_Forall2. exact H.
Qed.

(** ** The flattener on arbitrary payloads *)

Section Uniform.
Local Open Scope list_scope.

Lemma appends_nothing : appends (fun acc => Ok acc).
Proof. left. exists []. intros acc. rewrite app_nil_r. reflexivity. Qed.

Lemma appends_throw : appends (fun _ => Throw TypeError).
Proof. right. left. intros acc. reflexivity. Qed.

Lemma appends_after (c : RedditComment.t)
  (step : list RedditComment.t -> Outcome (list RedditComment.t)) :
  appends step -> appends (fun acc => step (acc ++ [c])).
Proof.
  intros [[added Hadd] | [Hthrow | Hthrow]].
  - left. exists (c :: added). intros acc. rewrite Hadd, <- app_assoc. reflexivity.
  - right. left. intros acc. apply Hthrow.
  - right. right. intros acc. apply Hthrow.
Qed.

Lemma appends_ext (s1 s2 : list RedditComment.t -> Outcome (list RedditComment.t)) :
  (forall acc, s1 acc = s2 acc) -> appends s1 -> appends s2.
Proof.
  intros Hext [[added Hadd] | [Hthrow | Hthrow]].
  - left. exists added. intros acc. rewrite <- Hext. apply Hadd.
  - right. left. intros acc. rewrite <- Hext. apply Hthrow.
  - right. right. intros acc. rewrite <- Hext. apply Hthrow.
Qed.

Lemma truthy_get (v : value) (key : string) :
  truthy v = true -> exists x, get v key = Ok x.
Proof.
  destruct v; cbn [truthy get]; intros H; try discriminate; eexists; reflexivity.
Qed.

Lemma mapComment_truthy (data : value) :
  truthy data = true -> exists c, mapComment data = Ok c.
Proof.
  destruct data; cbn [truthy]; intros H; try discriminate H;
    unfold mapComment; cbn [get obind]; eexists; reflexivity.
Qed.

Lemma visit_appends (self : value -> list RedditComment.t -> Outcome (list RedditComment.t))
  (child : value) :
  (forall v, appends (self v)) -> appends (visit self child).
Proof.
  intros Hself. unfold visit.
  destruct (get child "kind") as [kind|e] eqn:Hkind; cbn [obind].
  2:{ destruct child; cbn [get] in Hkind; try discriminate;
      injection Hkind as <-; apply appends_throw. }
  destruct (strict_eq_str kind "t1"); [|apply appends_nothing].
  destruct (get child "data") as [data|e] eqn:Hdata; cbn [obind].
  2:{ destruct child; cbn [get] in Hkind; discriminate. }
  destruct (truthy data) eqn:Ht; [|apply appends_nothing].
  destruct (mapComment_truthy data Ht) as [c ->]. cbn [obind].
  destruct (truthy_get data "replies" Ht) as [replies ->]. cbn [obind].
  destruct (truthy replies) eqn:Htr.
  2:{ left. exists [c]. intros acc. reflexivity. }
  destruct (truthy_get replies "data" Htr) as [rdata ->]. cbn [obind].
  destruct (truthy rdata) eqn:Htd.
  2:{ left. exists [c]. intros acc. reflexivity. }
  destruct (truthy_get rdata "children" Htd) as [rc ->]. cbn [obind].
  destruct (truthy rc).
  2:{ left. exists [c]. intros acc. reflexivity. }
  apply (appends_after c (self rc)). apply Hself.
Qed.

Lemma for_each_appends (body : value -> list RedditComment.t -> Outcome (list RedditComment.t))
  (items : list value) :
  (forall child, appends (body child)) -> appends (for_each body items).
Proof.
  intros Hbody. induction items as [|child rest IH]; cbn [for_each].
  - apply appends_nothing.
  - destruct (Hbody child) as [[a1 H1] | [H1 | H1]].
    + destruct IH as [[a2 H2] | [H2 | H2]].
      * left. exists (a1 ++ a2). intros acc.
        rewrite H1. cbn [obind]. rewrite H2, app_assoc. reflexivity.
      * right. left. intros acc. rewrite H1. cbn [obind]. apply H2.
      * right. right. intros acc. rewrite H1. cbn [obind]. apply H2.
    + right. left. intros acc. rewrite H1. reflexivity.
    + right. right. intros acc. rewrite H1. reflexivity.
Qed.

Lemma extractComments_fuel_appends (fuel : nat) (children : value) :
  appends (extractComments_fuel fuel children).
Proof.
  revert children. induction fuel as [|fuel IH]; intros children.
  - right. right. intros acc. reflexivity.
  - cbn [extractComments_fuel]. unfold for_of.
    destruct children; try apply appends_throw.
    + apply for_each_appends. intros child. apply visit_appends. exact IH.
    + apply for_each_appends. intros child. apply visit_appends. exact IH.
Qed.
End Uniform.

(** X4. Whatever the accumulator holds, and whatever depth of recursion
    the stack allows, the flattener either appends to it one and the same
    list of comments, leaving what it held in place, or throws a TypeError,
    or overflows the stack (RangeError); which of the three does not depend
    on the accumulator. *)
Theorem flattener_appends_or_throws (fuel : nat) (children : value) :
  (exists added,
      forall comments,
        extractComments_fuel fuel children comments = Ok (comments ++ added)%list)
  \/ (forall comments, extractComments_fuel fuel children comments = Throw TypeError)
  \/ (forall comments, extractComments_fuel fuel children comments = Throw RangeError).
Proof.
  destruct (extractComments_fuel_appends fuel children)
    as [[added Happends] | [Htype | Hrange]].
  - left. exists added. exact Happends.
  - right. left. exact Htype.
  - right. right. exact Hrange.
Qed.

(** X5. An array in which no element is of kind 't1' (every element has
    another kind, or none) flattens to nothing: the accumulator comes back
    as it was. *)
Theorem flattener_skips_other_kinds (items : list value)
  (comments : list RedditComment.t) :
  Forall (fun child => exists kind, get child "kind" = Ok kind
                                    /\ strict_eq_str kind "t1" = false) items ->
  extractComments (JArr items) comments = Ok comments.
Proof.
  intros Hkinds. rewrite extractComments_array.
  induction Hkinds as [|child rest [kind [Hkind Hother]] _ IH]; cbn [for_each];
    [reflexivity|].
  unfold visit. rewrite Hkind. cbn [obind]. rewrite Hother. cbn [obind]. exact IH.
Qed.

Lemma flattener_skips_other_kinds_witness :
  extractComments (JArr placeholders_only) [] = Ok [].
Proof.
  apply flattener_skips_other_kinds.
  repeat constructor; eexists; split; reflexivity.
Defined.

(** X6. A null element stops the flattener with a TypeError, whatever
    comes after it and whatever was collected before it. *)
Theorem flattener_aborts_on_null_element (before after : list value) (child : value)
  (comments collected : list RedditComment.t) :
  is_nullish child = true ->
  extractComments (JArr before) comments = Ok collected ->
  extractComments (JArr (before ++ child :: after)%list) comments = Throw TypeError.
Proof.
  intros Hnull Hbefore. rewrite extractComments_array in Hbefore.
  rewrite extractComments_array, for_each_app, Hbefore. cbn [obind for_each].
  destruct child; try discriminate Hnull; reflexivity.
Qed.

Lemma flattener_aborts_on_null_element_witness :
  extractComments
    (JArr (map encode thread_ABDC ++ JNull :: map encode thread_ABDC)%list) []
  = Throw TypeError.
Proof.
  apply (flattener_aborts_on_null_element (map encode thread_ABDC)
           (map encode thread_ABDC) JNull []
           [comment_of (named "A"); comment_of (named "B");
            comment_of (named "D"); comment_of (named "C")]);
    reflexivity.
Defined.

(** ** The session across failures and queries *)

Lemma token_is_fresh_total (env : Env) (w : World) :
  exists fresh w0, token_is_fresh env w = (Ok fresh, w0).
Proof.
  rewrite token_is_fresh_eq.
  destruct (truthy (accessToken (this w))); do 2 eexists; reflexivity.
Qed.

Lemma exchange_failure (config : Config.t) (env : Env) (w w' : World) (e : Error) :
  exchange_token config env w = (Throw e, w') ->
  this w' = this w
  /\ (e = FetchError
      \/ (exists res, ok res = false
                      /\ e = JsError ("Authentication failed: " ++ show (status res)
                                        ++ " " ++ statusText res))
      \/ e = SyntaxError
      \/ e = TypeError).
Proof.
  unfold exchange_token, bind, fetch, json, lift, set_accessToken, Date_now,
    env_StringToNumber, set_tokenExpiry, throw.
  destruct (respond env (length (requests (log w))) (token_request config)) as [res|].
  2:{ intros [= <- <-]. split; [reflexivity|]. left. reflexivity. }
  destruct (ok res) eqn:Hok; cbn [negb].
  2:{ intros [= <- <-]. split; [reflexivity|]. right. left.
      exists res. split; [exact Hok | reflexivity]. }
  destruct (payload res) as [data|]; cbn [this reads log].
  2:{ intros [= <- <-]. split; [reflexivity|]. right. right. left. reflexivity. }
  destruct (get data "access_token") as [token|e'] eqn:Htoken; cbn [this reads log].
  2:{ intros [= <- <-]. split; [reflexivity|]. right. right. right.
      destruct data; cbn [get] in Htoken; try discriminate.
      - injection Htoken as <-. reflexivity.
      - injection Htoken as <-. reflexivity. }
  destruct (get data "expires_in") as [lifetime|e'] eqn:Hlifetime; cbn [this reads log].
  - discriminate.
  - destruct data; cbn [get] in Htoken, Hlifetime; discriminate.
Qed.

(** X7. When authenticate fails - the token endpoint unreachable, a status
    outside 200..299, a body that is not JSON, a body that is null - the
    token and the expiry of the session are what they were before the call,
    provided the lifetime the endpoint reports, if any, is a primitive value
    (its conversion to a number, which comes after the token is stored,
    then cannot throw). *)
Theorem failed_authentication_keeps_session
  (config : Config.t) (env : Env) (w w' : World) (e : Error) :
  authenticate config env w = (Throw e, w') ->
  (forall res data lifetime,
      respond env (length (requests (log w))) (token_request config) = Some res ->
      payload res = Some data ->
      get data "expires_in" = Ok lifetime ->
      is_primitive lifetime = true) ->
  this w' = this w
  /\ (e = FetchError
      \/ (exists res, ok res = false
                      /\ e = JsError ("Authentication failed: " ++ show (status res)
                                        ++ " " ++ statusText res))
      \/ e = SyntaxError
      \/ e = TypeError).
Proof.
  intros Hauth _.
  destruct (token_is_fresh_total env w) as [fresh [w0 Hcheck]].
  rewrite (authenticate_after_check config env w w0 fresh Hcheck) in Hauth.
  destruct fresh; [discriminate|].
  destruct (exchange_failure config env w0 w' e Hauth) as [Hthis Herr].
  destruct (token_is_fresh_keeps env w w0 _ Hcheck) as [Hsame _].
  split; [congruence | exact Herr].
Qed.

Lemma failed_authentication_keeps_session_witness :
  this (snd (authenticate config_presupplied (unreachable 1700000000000)
               (startup config_presupplied)))
  = {| accessToken := JStr "tok"; tokenExpiry := Num 0 |}.
Proof.
  refine (proj1 (failed_authentication_keeps_session config_presupplied
                   (unreachable 1700000000000) (startup config_presupplied)
                   _ FetchError eq_refl _)).
  intros res data lifetime Hres. discriminate Hres.
Defined.

Lemma authenticate_requests (config : Config.t) (env : Env) (w : World) :
  requests (log (snd (authenticate config env w))) = requests (log w)
  \/ requests (log (snd (authenticate config env w)))
     = (requests (log w) ++ [token_request config])%list.
Proof.
  destruct (token_is_fresh_total env w) as [fresh [w0 Hcheck]].
  rewrite (authenticate_after_check config env w w0 fresh Hcheck).
  destruct (token_is_fresh_keeps env w w0 _ Hcheck) as [_ Hlog].
  destruct fresh.
  - left. cbn [snd]. rewrite Hlog. reflexivity.
  - right. rewrite exchange_requests, Hlog. reflexivity.
Qed.

(** After [authenticate], a method sends its one request, with the token
    the session then holds, and leaves the session alone. *)
Lemma request_after_authenticate (config : Config.t) (ep : string) (env : Env)
  (w w1 : World) :
  authenticate config env w = (Ok tt, w1) ->
  requests (log (snd (makeRequest config ep env w)))
  = (requests (log w1) ++ [api_request config (accessToken (this w1)) ep])%list
  /\ this (snd (makeRequest config ep env w)) = this w1.
Proof.
  intros Hauth. unfold makeRequest, bind, read_this, fetch, json, throw.
  rewrite Hauth.
  destruct (respond env (length (requests (log w1)))
              (api_request config (accessToken (this w1)) ep)) as [res|];
    cbn [snd log this]; [|split; [apply requests_app | reflexivity]].
  destruct (ok res); cbn [negb snd log this].
  - destruct (payload res); cbn [snd log this]; split; try reflexivity;
      rewrite !requests_app; cbn; rewrite app_nil_r; reflexivity.
  - split; [apply requests_app | reflexivity].
Qed.

Lemma perform_world (config : Config.t) (q : Query) (ep : string) (env : Env) (w : World) :
  endpoint q = Ok ep ->
  snd (perform config q env w) = snd (makeRequest config ep env w).
Proof.
  intros Hep. rewrite perform_factors, Hep.
  destruct (makeRequest config ep env w) as [[data|e] w']; reflexivity.
Qed.

(** X8. A query sends at most two requests and no others: possibly the
    token exchange, then possibly its own request to the API host, at the
    endpoint of the method; nothing is sent twice. *)
Theorem query_sends_at_most_two_requests
  (config : Config.t) (q : Query) (env : Env) (w : World) :
  exists sent,
    requests (log (snd (perform config q env w))) = (requests (log w) ++ sent)%list
    /\ (sent = []
        \/ sent = [token_request config]
        \/ exists token ep,
             endpoint q = Ok ep
             /\ (sent = [api_request config token ep]
                 \/ sent = [token_request config; api_request config token ep])).
Proof.
  destruct (endpoint q) as [ep|e] eqn:Hep.
  2:{ exists []. rewrite perform_factors, Hep. cbn [snd]. rewrite app_nil_r.
      split; [reflexivity | left; reflexivity]. }
  rewrite (perform_world config q ep env w Hep).
  destruct (authenticate config env w) as [[[]|e] w1] eqn:Hauth.
  - destruct (request_after_authenticate config ep env w w1 Hauth) as [-> _].
    pose proof (authenticate_requests config env w) as Hsent.
    rewrite Hauth in Hsent. cbn [snd] in Hsent.
    destruct Hsent as [-> | ->].
    + eexists. split; [reflexivity|]. right. right.
      exists (accessToken (this w1)), ep. split; [reflexivity|]. left. reflexivity.
    + eexists. rewrite <- app_assoc. split; [reflexivity|]. right. right.
      exists (accessToken (this w1)), ep. split; [reflexivity|]. right. reflexivity.
  - rewrite (makeRequest_auth_throws config ep env w w1 e Hauth). cbn [snd].
    pose proof (authenticate_requests config env w) as Hsent.
    rewrite Hauth in Hsent. cbn [snd] in Hsent.
    destruct Hsent as [-> | ->].
    + exists []. rewrite app_nil_r. split; [reflexivity | left; reflexivity].
    + eexists. split; [reflexivity|]. right. left. reflexivity.
Qed.

(** X9. While the cached token is fresh, a query does not call the token
    endpoint: its only request is the one to the API host, with the cached
    token as bearer, and the token and expiry of the session stay as they
    are. *)
Theorem fresh_token_is_reused
  (config : Config.t) (q : Query) (ep : string) (env : Env) (w w0 : World) :
  endpoint q = Ok ep ->
  token_is_fresh env w = (Ok true, w0) ->
  requests (log (snd (perform config q env w)))
  = (requests (log w) ++ [api_request config (accessToken (this w)) ep])%list
  /\ this (snd (perform config q env w)) = this w
  /\ In ("Authorization", "Bearer " ++ to_string (accessToken (this w)))
       (headers (api_request config (accessToken (this w)) ep)).
Proof.
  intros Hep Hcheck.
  pose proof (authenticate_after_check config env w w0 true Hcheck) as Hauth.
  cbn iota in Hauth.
  destruct (token_is_fresh_keeps env w w0 _ Hcheck) as [Hthis Hlog].
  rewrite (perform_world config q ep env w Hep).
  destruct (request_after_authenticate config ep env w w0 Hauth) as [-> ->].
  rewrite Hthis, Hlog. split; [reflexivity|]. split; [reflexivity|].
  left. reflexivity.
Qed.

Lemma fresh_token_is_reused_witness :
  requests (log (snd (perform config_anonymous (GetUserInfo (JStr "spez"))
                        sample_remote (cached_session 1700000000001))))
  = [api_request config_anonymous (JStr "cached") "/user/spez/about"]
  /\ this (snd (perform config_anonymous (GetUserInfo (JStr "spez"))
                  sample_remote (cached_session 1700000000001)))
     = this (cached_session 1700000000001).
Proof.
  destruct (fresh_token_is_reused config_anonymous (GetUserInfo (JStr "spez"))
              "/user/spez/about" sample_remote (cached_session 1700000000001)
              {| this := this (cached_session 1700000000001); reads := 1; log := [] |}
              eq_refl eq_refl) as [Hsent [Hthis _]].
  split; [exact Hsent | exact Hthis].
Defined.

(** X10. When the cached token is not fresh and the exchange is granted,
    the query sends the exchange and then its own request, and that request
    carries the token just granted as bearer. *)
Theorem granted_token_is_the_bearer
  (config : Config.t) (q : Query) (ep : string) (env : Env) (w w0 : World)
  (res : Response) (data token lifetime : value) :
  endpoint q = Ok ep ->
  token_is_fresh env w = (Ok false, w0) ->
  respond env (length (requests (log w0))) (token_request config) = Some res ->
  ok res = true ->
  payload res = Some data ->
  get data "access_token" = Ok token ->
  get data "expires_in" = Ok lifetime ->
  requests (log (snd (perform config q env w)))
  = (requests (log w) ++ [token_request config; api_request config token ep])%list
  /\ accessToken (this (snd (perform config q env w))) = token
  /\ In ("Authorization", "Bearer " ++ to_string token)
       (headers (api_request config token ep)).
Proof.
  intros Hep Hcheck Hres Hok Hpayload Htoken Hlifetime.
  pose proof (authenticate_after_check config env w w0 false Hcheck) as Hauth.
  cbn iota in Hauth.
  rewrite (exchange_granted config env w0 res data token lifetime
             Hres Hok Hpayload Htoken Hlifetime) in Hauth.
  destruct (token_is_fresh_keeps env w w0 _ Hcheck) as [_ Hlog].
  rewrite (perform_world config q ep env w Hep).
  destruct (request_after_authenticate config ep env w _ Hauth) as [-> ->].
  cbn [this accessToken log]. rewrite !requests_app, Hlog. cbn [requests flat_map app].
  rewrite <- app_assoc. split; [reflexivity|]. split; [reflexivity|].
  left. reflexivity.
Qed.

Lemma granted_token_is_the_bearer_witness :
  requests (log (snd (perform config_presupplied (GetUserInfo (JStr "spez"))
                        sample_remote (startup config_presupplied))))
  = [token_request config_presupplied;
     api_request config_presupplied (JStr "fresh") "/user/spez/about"].
Proof.
  exact (proj1 (granted_token_is_the_bearer config_presupplied
                  (GetUserInfo (JStr "spez")) "/user/spez/about" sample_remote
                  (startup config_presupplied)
                  {| this := constructor config_presupplied; reads := 1; log := [] |}
                  (token_reply "fresh" 3600)
                  (JObj [("access_token", JStr "fresh"); ("token_type", JStr "bearer");
                         ("expires_in", JNum 3600)])
                  (JStr "fresh") (JNum 3600)
                  eq_refl eq_refl eq_refl eq_refl eq_refl eq_refl eq_refl)).
Defined.

(** X11. Without a refresh token, a configuration with both a username and
    a password (non-empty) exchanges them in the password grant, each
    form-encoded; when one of the two is empty, it falls back to the
    client_credentials grant and sends neither. *)
Theorem password_grant_needs_both
  (config : Config.t) (user pass : string) :
  truthy (optional (Config.refreshToken config)) = false ->
  Config.username config = Some user ->
  Config.password config = Some pass ->
  (user <> "" -> pass <> "" ->
   body (token_request config)
   = Some ("grant_type=password&username=" ++ form_urlencode user
             ++ "&password=" ++ form_urlencode pass))
  /\ (user = "" \/ pass = "" ->
      body (token_request config) = Some "grant_type=client_credentials").
Proof.
  intros Hrefresh Huser Hpass.
  unfold token_request, grant_params. cbn [body].
  rewrite Hrefresh, Huser, Hpass. cbn [optional truthy to_string]. split.
  - intros Hu Hp. apply String.eqb_neq in Hu, Hp. rewrite Hu, Hp. reflexivity.
  - intros [-> | ->].
    + reflexivity.
    + rewrite andb_false_r. reflexivity.
Qed.

Lemma password_grant_needs_both_witness :
  body (token_request config_password)
  = Some "grant_type=password&username=alice&password=p%26ss+word".
Proof.
  apply (proj1 (password_grant_needs_both config_password "alice" "p&ss word"
                  eq_refl eq_refl eq_refl)); discriminate.
Defined.

(** ** Start-up configuration *)

(** X12. getConfig fails exactly when the client id or the client secret
    is not set or empty, and then with a validation error; when it returns,
    the three required fields are non-empty, the user agent being the
    fixed fallback when the variable is not set or empty, and the optional
    credentials are the variables as they are. *)
Theorem getConfig_needs_id_and_secret (process_env : string -> option string) :
  (getConfig process_env = Throw ZodError
   <-> unset (process_env "REDDIT_CLIENT_ID") = true
       \/ unset (process_env "REDDIT_CLIENT_SECRET") = true)
  /\ (forall config,
         getConfig process_env = Ok config <->
         unset (process_env "REDDIT_CLIENT_ID") = false
         /\ unset (process_env "REDDIT_CLIENT_SECRET") = false
         /\ config
            = {| Config.clientId :=
                   match process_env "REDDIT_CLIENT_ID" with Some s => s | None => "" end;
                 Config.clientSecret :=
                   match process_env "REDDIT_CLIENT_SECRET" with Some s => s | None => "" end;
                 Config.userAgent :=
                   if unset (process_env "REDDIT_USER_AGENT")
                   then "reddit-mcp-server/1.0.0"
                   else match process_env "REDDIT_USER_AGENT" with
                        | Some s => s
                        | None => ""
                        end;
                 Config.username := process_env "REDDIT_USERNAME";
                 Config.password := process_env "REDDIT_PASSWORD";
                 Config.refreshToken := process_env "REDDIT_REFRESH_TOKEN";
                 Config.accessToken := process_env "REDDIT_ACCESS_TOKEN" |}).
Proof.
  unfold getConfig, unset.
  cbn [Config.clientId Config.clientSecret Config.userAgent].
  destruct (process_env "REDDIT_CLIENT_ID") as [id|];
    [destruct (String.eqb_spec id "") as [->|Hid]|];
    (destruct (process_env "REDDIT_CLIENT_SECRET") as [secret|];
     [destruct (String.eqb_spec secret "") as [->|Hsecret]|]);
    (destruct (process_env "REDDIT_USER_AGENT") as [agent|];
     [destruct (String.eqb_spec agent "") as [->|Hagent]|]);
    cbn [String.eqb orb];
    try (apply String.eqb_neq in Hid; rewrite Hid);
    try (apply String.eqb_neq in Hsecret; rewrite Hsecret);
    try (apply String.eqb_neq in Hagent; rewrite Hagent);
    cbn [orb];
    (split; [split; [intros H; try discriminate H; auto
                    | intros [H | H]; try discriminate H; reflexivity]
            | intros config; split;
              [intros H; try discriminate H; apply Ok_injective in H; subst config; auto
              | intros [H1 [H2 H3]]; try discriminate H1; try discriminate H2;
                subst config; reflexivity]]).
Qed.

(** ** The dispatcher *)






Lemma z_field_throws (check : value -> Outcome value) (arguments : value)
  (key : string) (e : Error) :
  (forall v e', check v = Throw e' -> e' = ZodError) ->
  z_field check arguments key = Throw e -> e = ZodError.
Proof.
  intros Hcheck. destruct arguments; cbn [z_field]; try (intros [= <-]; reflexivity).
  apply Hcheck.
Qed.

Lemma checks_throw_ZodError :
  (forall v e, z_string_min1 v = Throw e -> e = ZodError)
  /\ (forall v e, z_string_optional v = Throw e -> e = ZodError)
  /\ (forall options d v e, z_enum_default options d v = Throw e -> e = ZodError)
  /\ (forall v e, z_limit v = Throw e -> e = ZodError).
Proof.
  repeat split.
  - intros v e. destruct v; cbn [z_string_min1]; try (intros [= <-]; reflexivity).
    destruct (String.eqb s ""); [intros [= <-]; reflexivity | discriminate].
  - intros v e. destruct v; cbn [z_string_optional];
      try (intros [= <-]; reflexivity); discriminate.
  - intros options d v e. destruct v; cbn [z_enum_default];
      try (intros [= <-]; reflexivity); try discriminate.
    destruct (existsb (String.eqb s) options); [discriminate | intros [= <-]; reflexivity].
  - intros v e. destruct v; cbn [z_limit]; try (intros [= <-]; reflexivity);
      try discriminate.
    destruct ((1 <=? n) && (n <=? 100)); [discriminate | intros [= <-]; reflexivity].
Qed.

(** Case analysis on the name of the tool, along the switch. *)
Ltac by_tool_name name :=
  unfold tool_call;
  destruct (String.eqb_spec name "get_subreddit_posts") as [->|?];
  [|destruct (String.eqb_spec name "get_post") as [->|?];
  [|destruct (String.eqb_spec name "get_post_comments") as [->|?];
  [|destruct (String.eqb_spec name "get_subreddit_info") as [->|?];
  [|destruct (String.eqb_spec name "get_user_info") as [->|?];
  [|destruct (String.eqb_spec name "get_user_posts") as [->|?];
  [|destruct (String.eqb_spec name "get_user_comments") as [->|?];
  [|destruct (String.eqb_spec name "search_posts") as [->|?];
  [|destruct (String.eqb_spec name "search_subreddits") as [->|?]]]]]]]]].


Lemma tool_call_unknown (name : string) (arguments : value) :
  ~ In name (map JsonSchema.name ListTools) ->
  tool_call name arguments = Throw (ToolNotFound name).
Proof.
  intros Hunknown. by_tool_name name; try reflexivity;
    exfalso; apply Hunknown; cbn; tauto.
Qed.

Lemma tool_call_throws (name : string) (arguments : value) (e : Error) :
  tool_call name arguments = Throw e ->
  e = ZodError
  \/ e = ToolNotFound name /\ ~ In name (map JsonSchema.name ListTools).
Proof.
  destruct checks_throw_ZodError as [Hname [Hopt [Henum Hlimit]]].
  by_tool_name name; intros H.
  10:{ right. injection H as <-. split; [reflexivity|].
       cbn. intros Hin. repeat destruct Hin as [Hin | Hin]; try congruence. }
  all: left.
  all: repeat match type of H with
         | obind (z_field ?check ?a ?key) _ = Throw _ =>
             let Hx := fresh "Hfield" in
             destruct (z_field check a key) eqn:Hx; cbn [obind] in H;
             [| injection H as <-;
                first [ exact (z_field_throws _ _ _ _ Hname Hx)
                      | exact (z_field_throws _ _ _ _ Hopt Hx)
                      | exact (z_field_throws _ _ _ _ (Henum _ _) Hx)
                      | exact (z_field_throws _ _ _ _ Hlimit Hx) ] ]
         end.
  all: discriminate H.
Qed.


(** X13. A call that validation rejects, or whose tool does not exist,
    touches nothing: no request is sent, the clock is not read and the
    session is as before. A schema failure is reported as InvalidParams; a
    name that is no tool is reported as InternalError (the catch block
    re-wraps the MethodNotFound error thrown in the switch). *)
Theorem rejected_call_touches_nothing
  (config : Config.t) (name : string) (arguments : value) (env : Env) (w : World)
  (e : Error) :
  tool_call name arguments = Throw e ->
  call_tool config name arguments env w = (McpError (code_of e) e, w)
  /\ (e = ZodError /\ code_of e = InvalidParams
      \/ e = ToolNotFound name /\ code_of e = InternalError
         /\ ~ In name (map JsonSchema.name ListTools)).
Proof.
  intros Hcall. split.
  - unfold call_tool, bind, lift. rewrite Hcall. destruct e; reflexivity.
  - destruct (tool_call_throws name arguments e Hcall) as [-> | [-> Hunknown]].
    + left. split; reflexivity.
    + right. split; [reflexivity|]. split; [reflexivity | exact Hunknown].
Qed.

Lemma rejected_call_touches_nothing_witness :
  call_tool config_anonymous "get_subreddit_posts"
    (JObj [("subreddit", JStr "rocq"); ("limit", JNum 101)])
    sample_remote (startup config_anonymous)
  = (McpError InvalidParams ZodError, startup config_anonymous)
  /\ call_tool config_anonymous "delete_post" (JObj [("postId", JStr "abc")])
       sample_remote (startup config_anonymous)
     = (McpError InternalError (ToolNotFound "delete_post"), startup config_anonymous).
Proof.
  split.
  - exact (proj1 (rejected_call_touches_nothing config_anonymous "get_subreddit_posts"
                    (JObj [("subreddit", JStr "rocq"); ("limit", JNum 101)])
                    sample_remote (startup config_anonymous) ZodError eq_refl)).
  - exact (proj1 (rejected_call_touches_nothing config_anonymous "delete_post"
                    (JObj [("postId", JStr "abc")])
                    sample_remote (startup config_anonymous)
                    (ToolNotFound "delete_post") eq_refl)).
Defined.

(** X14. The tools the ListTools handler advertises are exactly the names
    the switch of the CallTool handler knows: an advertised name leads to
    its schema (the call is accepted or fails validation), any other name to
    the "not found" error, whatever the arguments. *)
Theorem advertised_tools_are_dispatched (name : string) :
  NoDup (map JsonSchema.name ListTools)
  /\ (if existsb (String.eqb name) (map JsonSchema.name ListTools)
      then forall arguments,
             (exists q, tool_call name arguments = Ok q)
             \/ tool_call name arguments = Throw ZodError
      else forall arguments, tool_call name arguments = Throw (ToolNotFound name)).
Proof.
  split.
  - cbn. repeat constructor; cbn; intros Hin;
      repeat destruct Hin as [Hin | Hin]; try discriminate Hin; exact Hin.
  - destruct (existsb (String.eqb name) (map JsonSchema.name ListTools)) eqn:Hlisted.
    + intros arguments.
      destruct (tool_call name arguments) as [q|e] eqn:Hcall.
      * left. exists q. reflexivity.
      * right. destruct (tool_call_throws name arguments e Hcall) as [-> | [_ Hunknown]];
          [reflexivity|].
        exfalso. apply Hunknown. apply existsb_exists in Hlisted.
        destruct Hlisted as [x [Hin Heq]]. apply String.eqb_eq in Heq. subst x. exact Hin.
    + intros arguments. apply tool_call_unknown. intros Hin.
      assert (Htrue : existsb (String.eqb name) (map JsonSchema.name ListTools) = true).
      { apply existsb_exists. exists name. split; [exact Hin | apply String.eqb_refl]. }
      congruence.
Qed.




Lemma lookup_other_key (key key' : string) (v : value) (props : list (string * value)) :
  key <> key' -> lookup key' ((key, v) :: props) = lookup key' props.
Proof.
  intros Hne. cbn [lookup]. apply String.eqb_neq in Hne. rewrite Hne. reflexivity.
Qed.

(** X16. A key that no schema declares is dropped before the call is made:
    adding it to the arguments changes neither the outcome of validation
    nor the call. In particular a [time] argument to search_posts has no
    effect. *)
Theorem undeclared_key_is_ignored
  (name key : string) (v : value) (props : list (string * value)) :
  ~ In key declared_keys ->
  tool_call name (JObj ((key, v) :: props)) = tool_call name (JObj props).
Proof.
  intros Hkey.
  assert (Hlookup : forall key', In key' declared_keys ->
                                 lookup key' ((key, v) :: props) = lookup key' props).
  { intros key' Hin. apply lookup_other_key. intros ->. apply Hkey. exact Hin. }
  unfold tool_call, z_field.
  rewrite !Hlookup by (cbn; tauto). reflexivity.
Qed.

Lemma undeclared_key_is_ignored_witness :
  tool_call "search_posts"
    (JObj [("time", JStr "day"); ("query", JStr "cats"); ("sort", JStr "top")])
  = Ok (SearchPosts (JStr "cats") JUndefined (JStr "top") (JNum 25) JUndefined).
Proof.
  rewrite (undeclared_key_is_ignored "search_posts" "time" (JStr "day")
             [("query", JStr "cats"); ("sort", JStr "top")]).
  - reflexivity.
  - cbn. intros H. repeat destruct H as [H | H]; try discriminate H; exact H.
Defined.

(** ** Which errors come from where *)

Lemma get_throws (v : value) (key : string) (e : Error) :
  get v key = Throw e -> e = TypeError.
Proof. destruct v; cbn [get]; intros H; try discriminate H; congruence. Qed.

Lemma at_index_throws (v : value) (i : nat) (e : Error) :
  at_index v i = Throw e -> e = TypeError.
Proof. destruct v; cbn [at_index]; intros H; try discriminate H; congruence. Qed.

Lemma mappers_throw_TypeError (data : value) (e : Error) :
  (mapPost data = Throw e -> e = TypeError)
  /\ (mapComment data = Throw e -> e = TypeError)
  /\ (mapSubreddit data = Throw e -> e = TypeError)
  /\ (mapUser data = Throw e -> e = TypeError).
Proof.
  unfold mapPost, mapComment, mapSubreddit, mapUser.
  destruct data; cbn [get obind]; repeat split; intros H;
    try discriminate H; congruence.
Qed.

Lemma map_children_throws {A} (f : value -> Outcome A) (items : list value) (e : Error) :
  (forall v e', f v = Throw e' -> e' = TypeError) ->
  map_children f items = Throw e -> e = TypeError.
Proof.
  intros Hf. induction items as [|child rest IH]; cbn [map_children]; [discriminate|].
  destruct (get child "data") as [raw|e'] eqn:Hraw; cbn [obind].
  2:{ intros [= <-]. exact (get_throws _ _ _ Hraw). }
  destruct (f raw) as [a|e'] eqn:Ha; cbn [obind].
  2:{ intros [= <-]. exact (Hf _ _ Ha). }
  destruct (map_children f rest) as [others|e']; cbn [obind]; [discriminate|].
  intros [= <-]. apply IH. reflexivity.
Qed.

Lemma listing_throws {A} (f : value -> Outcome A) (data : value) (e : Error) :
  (forall v e', f v = Throw e' -> e' = TypeError) ->
  listing f data = Throw e -> e = TypeError.
Proof.
  intros Hf. unfold listing.
  destruct (get data "data") as [d|e'] eqn:Hd; cbn [obind].
  2:{ intros [= <-]. exact (get_throws _ _ _ Hd). }
  destruct (get d "children") as [children|e'] eqn:Hc; cbn [obind].
  2:{ intros [= <-]. exact (get_throws _ _ _ Hc). }
  destruct children; try (intros [= <-]; reflexivity).
  apply map_children_throws. exact Hf.
Qed.

Lemma extractComments_throws (children : value) (comments : list RedditComment.t)
  (e : Error) :
  extractComments children comments = Throw e -> e = TypeError.
Proof.
  intros H.
  destruct (extractComments_fuel_appends (S (depth children)) children)
    as [[added Hadd] | [Hthrow | Hthrow]].
  - unfold extractComments in H. rewrite Hadd in H. discriminate H.
  - unfold extractComments in H. rewrite Hthrow in H. congruence.
  - exfalso. apply (extractComments_never_overflows children comments). apply Hthrow.
Qed.

Lemma obind_throws {A B} (c : Outcome A) (k : A -> Outcome B) (e : Error) :
  obind c k = Throw e ->
  c = Throw e \/ exists a, c = Ok a /\ k a = Throw e.
Proof.
  destruct c as [a|e']; cbn [obind]; intros H.
  - right. exists a. split; [reflexivity | exact H].
  - left. injection H as <-. reflexivity.
Qed.

Lemma decode_throws (q : Query) (data : value) (e : Error) :
  decode q data = Throw e -> e = TypeError.
Proof.
  pose proof (fun v e' => proj1 (mappers_throw_TypeError v e')) as Hpost.
  pose proof (fun v e' => proj1 (proj2 (mappers_throw_TypeError v e'))) as Hcomment.
  pose proof (fun v e' => proj1 (proj2 (proj2 (mappers_throw_TypeError v e')))) as Hsub.
  pose proof (fun v e' => proj2 (proj2 (proj2 (mappers_throw_TypeError v e')))) as Huser.
  destruct q; cbn [decode]; intros H;
    apply obind_throws in H; destruct H as [H | [a [_ H]]]; try discriminate H.
  - exact (listing_throws _ _ _ Hpost H).
  - do 5 (apply obind_throws in H; destruct H as [H | [? [_ H]]];
            [first [exact (get_throws _ _ _ H) | exact (at_index_throws _ _ _ H)]|]).
    exact (Hpost _ _ H).
  - apply obind_throws in H. destruct H as [H | [second [_ H]]];
      [exact (at_index_throws _ _ _ H)|].
    destruct (truthy second); [|discriminate H].
    apply obind_throws in H. destruct H as [H | [d [_ H]]];
      [exact (get_throws _ _ _ H)|].
    destruct (truthy d); [|discriminate H].
    apply obind_throws in H. destruct H as [H | [children [_ H]]];
      [exact (get_throws _ _ _ H)|].
    destruct (truthy children); [|discriminate H].
    exact (extractComments_throws _ _ _ H).
  - apply obind_throws in H. destruct H as [H | [d [_ H]]];
      [exact (get_throws _ _ _ H) | exact (Hsub _ _ H)].
  - apply obind_throws in H. destruct H as [H | [d [_ H]]];
      [exact (get_throws _ _ _ H) | exact (Huser _ _ H)].
  - exact (listing_throws _ _ _ Hpost H).
  - exact (listing_throws _ _ _ Hcomment H).
  - exact (listing_throws _ _ _ Hpost H).
  - exact (listing_throws _ _ _ Hsub H).
Qed.

Lemma endpoint_throws (q : Query) (e : Error) :
  endpoint q = Throw e -> e = TypeError.
Proof.
  destruct q; cbn [endpoint]; try discriminate.
  unfold search_params.
  destruct (default_to (JNum 25) limit); cbn [obind]; intros H;
    try discriminate H; congruence.
Qed.

Lemma makeRequest_throws_runtime (config : Config.t) (ep : string) (env : Env)
  (w w' : World) (e : Error) :
  makeRequest config ep env w = (Throw e, w') -> is_runtime_error e = true.
Proof.
  unfold makeRequest, bind.
  destruct (authenticate config env w) as [[[]|e0] w1] eqn:Hauth.
  - unfold read_this, fetch, json, throw.
    destruct (respond env (length (requests (log w1)))
                (api_request config (accessToken (this w1)) ep)) as [res|].
    2:{ intros [= <- _]. reflexivity. }
    destruct (ok res); cbn [negb].
    + destruct (payload res); [discriminate|]. intros [= <- _]. reflexivity.
    + intros [= <- _]. reflexivity.
  - intros [= <- _].
    destruct (token_is_fresh_total env w) as [fresh [w0 Hcheck]].
    rewrite (authenticate_after_check config env w w0 fresh Hcheck) in Hauth.
    destruct fresh; [discriminate Hauth|].
    destruct (exchange_failure config env w0 w1 e0 Hauth)
      as [_ [-> | [[res [_ ->]] | [-> | ->]]]]; reflexivity.
Qed.

Lemma perform_throws_runtime (config : Config.t) (q : Query) (env : Env)
  (w w' : World) (e : Error) :
  perform config q env w = (Throw e, w') -> is_runtime_error e = true.
Proof.
  rewrite perform_factors.
  destruct (endpoint q) as [ep|e0] eqn:Hep.
  - destruct (makeRequest config ep env w) as [[data|e1] w1] eqn:Hreq.
    + intros [= Hdecode _]. rewrite (decode_throws q data e Hdecode). reflexivity.
    + intros [= <- _]. exact (makeRequest_throws_runtime config ep env w w1 e1 Hreq).
  - intros [= <- _]. rewrite (endpoint_throws q e0 Hep). reflexivity.
Qed.

(** X17. The handler answers InvalidParams exactly when the schema of the
    tool rejected the arguments, and then nothing was sent; every other
    failure - an unknown tool, a rejected or unreachable token or API
    request, a payload of another shape - is answered InternalError with
    the error thrown as its cause. *)
Theorem invalid_params_iff_validation_failed
  (config : Config.t) (name : string) (arguments : value) (env : Env)
  (w w' : World) (code : ErrorCode) (cause : Error) :
  call_tool config name arguments env w = (McpError code cause, w') ->
  (code = InvalidParams
   <-> tool_call name arguments = Throw ZodError /\ cause = ZodError /\ w' = w)
  /\ (code = InternalError
      <-> cause <> ZodError
          /\ (tool_call name arguments = Throw cause /\ w' = w
              \/ exists q, tool_call name arguments = Ok q
                           /\ perform config q env w = (Throw cause, w'))).
Proof.
  unfold call_tool, bind, lift.
  destruct (tool_call name arguments) as [q|e] eqn:Hcall.
  - destruct (perform config q env w) as [[entity|e] w1] eqn:Hrun; cbn [handle].
    + discriminate.
    + pose proof (perform_throws_runtime config q env w w1 e Hrun) as Hruntime.
      destruct e; try discriminate Hruntime; intros [= <- <- <-];
        (split; split;
         [ discriminate
         | intros [H _]; discriminate H
         | intros _; split; [discriminate|]; right; exists q;
           split; [reflexivity | exact Hrun]
         | reflexivity ]).
  - destruct (tool_call_throws name arguments e Hcall) as [-> | [-> _]];
      cbn [handle]; intros [= <- <- <-].
    + split; split.
      * intros _. repeat split; reflexivity.
      * reflexivity.
      * discriminate.
      * intros [H _]. congruence.
    + split; split.
      * discriminate.
      * intros [H _]. discriminate H.
      * intros _. split; [discriminate|]. left. split; reflexivity.
      * reflexivity.
Qed.

Lemma invalid_params_iff_validation_failed_witness :
  tool_call "get_post" (JObj [("postId", JStr "")]) = Throw ZodError
  /\ call_tool config_anonymous "get_post" (JObj [("postId", JStr "")])
       sample_remote (startup config_anonymous)
     = (McpError InvalidParams ZodError, startup config_anonymous).
Proof.
  split; [reflexivity|].
  pose proof (proj1 (invalid_params_iff_validation_failed config_anonymous "get_post"
                       (JObj [("postId", JStr "")]) sample_remote
                       (startup config_anonymous) (startup config_anonymous)
                       InvalidParams ZodError eq_refl)) as [Hcode _].
  destruct (Hcode eq_refl) as [_ [_ _]]. reflexivity.
Defined.

(** ** Methods on responses of an unusual shape *)

(** X18. When the response to a comment-thread request has no second
    element, or a second element without data, or with data without
    children (each absent, null, empty or otherwise falsy), getPostComments
    returns the empty list and throws nothing. *)
Theorem thread_without_listing_is_empty
  (config : Config.t) (postId sort : value) (env : Env) (w w' : World)
  (data second : value) :
  makeRequest config
    ("/comments/" ++ to_string postId ++ "?sort="
       ++ to_string (default_to (JStr "best") sort)) env w = (Ok data, w') ->
  at_index data 1 = Ok second ->
  truthy second = false
  \/ (exists d, get second "data" = Ok d
                /\ (truthy d = false
                    \/ exists children, get d "children" = Ok children
                                        /\ truthy children = false)) ->
  getPostComments config postId sort env w = (Ok [], w').
Proof.
  intros Hreq Hsecond Hmissing.
  unfold getPostComments, bind, lift. cbv zeta. rewrite Hreq, Hsecond. cbn [obind].
  destruct Hmissing as [-> | [d [Hd [Hfalsy | [children [Hc Hfalsy]]]]]].
  - reflexivity.
  - destruct (truthy second); [|reflexivity].
    rewrite Hd. cbn [obind]. rewrite Hfalsy. reflexivity.
  - destruct (truthy second); [|reflexivity].
    rewrite Hd. cbn [obind].
    destruct (truthy d); [|reflexivity].
    rewrite Hc. cbn [obind]. rewrite Hfalsy. reflexivity.
Qed.

Lemma thread_without_listing_is_empty_witness :
  fst (getPostComments config_anonymous (JStr "abc123") JUndefined
         (remote (token_reply "fresh" 3600) thread_without_listing 1700000000000)
         (startup config_anonymous))
  = Ok [].
Proof.
  rewrite (thread_without_listing_is_empty config_anonymous (JStr "abc123") JUndefined
             (remote (token_reply "fresh" 3600) thread_without_listing 1700000000000)
             (startup config_anonymous)
             (snd (makeRequest config_anonymous "/comments/abc123?sort=best"
                     (remote (token_reply "fresh" 3600) thread_without_listing
                        1700000000000)
                     (startup config_anonymous)))
             (JArr [JObj [("kind", JStr "Listing");
                          ("data", JObj [("children", JArr [])])]])
             JUndefined eq_refl eq_refl (or_introl eq_refl)).
  reflexivity.
Defined.

(** X19. When the first listing of the response to getPost has no child
    (the post does not exist), the method throws a TypeError: the element
    at index 0 is undefined and its data cannot be read. *)
Theorem missing_post_is_a_TypeError
  (config : Config.t) (postId : value) (env : Env) (w w' : World)
  (data first d : value) (items : list value) :
  makeRequest config ("/comments/" ++ to_string postId) env w = (Ok data, w') ->
  at_index data 0 = Ok first ->
  get first "data" = Ok d ->
  get d "children" = Ok (JArr items) ->
  is_nullish (nth 0 items JUndefined) = true ->
  getPost config postId env w = (Throw TypeError, w').
Proof.
  intros Hreq Hfirst Hd Hchildren Hnone.
  unfold getPost, bind, lift. rewrite Hreq, Hfirst. cbn [obind].
  rewrite Hd. cbn [obind]. rewrite Hchildren. cbn [obind at_index].
  destruct (nth 0 items JUndefined); try discriminate Hnone; reflexivity.
Qed.

Lemma missing_post_is_a_TypeError_witness :
  fst (getPost config_anonymous (JStr "nope")
         (remote (token_reply "fresh" 3600) thread_without_listing 1700000000000)
         (startup config_anonymous))
  = Throw TypeError.
Proof.
  rewrite (missing_post_is_a_TypeError config_anonymous (JStr "nope")
             (remote (token_reply "fresh" 3600) thread_without_listing 1700000000000)
             (startup config_anonymous)
             (snd (makeRequest config_anonymous "/comments/nope"
                     (remote (token_reply "fresh" 3600) thread_without_listing
                        1700000000000)
                     (startup config_anonymous)))
             (JArr [JObj [("kind", JStr "Listing");
                          ("data", JObj [("children", JArr [])])]])
             (JObj [("kind", JStr "Listing"); ("data", JObj [("children", JArr [])])])
             (JObj [("children", JArr [])]) []
             eq_refl eq_refl eq_refl eq_refl eq_refl).
  reflexivity.
Defined.

(** ** The advertised schemas against the validation *)

Lemma is_ok_z_string_min1 (v : value) : is_ok (z_string_min1 v) = is_name v.
Proof.
  destruct v; cbn [z_string_min1 is_name is_ok]; try reflexivity.
  destruct (String.eqb s ""); reflexivity.
Qed.

Lemma is_ok_z_string_optional (v : value) :
  is_ok (z_string_optional v) = is_optional_string v.
Proof. destruct v; reflexivity. Qed.

Lemma is_ok_z_enum_default (options : list string) (d : string) (v : value) :
  is_ok (z_enum_default options d v) = is_undefined v || is_sort options v.
Proof.
  destruct v; cbn [z_enum_default is_sort is_undefined is_ok orb]; try reflexivity.
  destruct (existsb (String.eqb s) options); reflexivity.
Qed.

Lemma is_ok_z_limit (v : value) : is_ok (z_limit v) = is_undefined v || is_limit v.
Proof.
  destruct v; cbn [z_limit is_limit is_undefined is_ok orb]; try reflexivity.
  destruct ((1 <=? n) && (n <=? 100)); reflexivity.
Qed.

Lemma allows_string (description : string) (v : value) :
  property_allows (string_property description) v = is_optional_string v.
Proof. destruct v; reflexivity. Qed.

Lemma allows_enum (options : list string) (description d : string) (v : value) :
  property_allows (enum_property options description d) v
  = is_undefined v || is_sort options v.
Proof. destruct v; reflexivity. Qed.

Lemma allows_limit (description : string) (v : value) :
  property_allows (limit_property description) v = is_undefined v || is_limit v.
Proof. destruct v; reflexivity. Qed.

Lemma is_ok_1 {A B} (c1 : Outcome A) (f : A -> B) :
  is_ok (obind c1 (fun x1 => Ok (f x1))) = is_ok c1.
Proof. destruct c1; reflexivity. Qed.

Lemma is_ok_2 {A B} (c1 c2 : Outcome A) (f : A -> A -> B) :
  is_ok (obind c1 (fun x1 => obind c2 (fun x2 => Ok (f x1 x2))))
  = is_ok c1 && is_ok c2.
Proof. destruct c1, c2; reflexivity. Qed.

Lemma is_ok_3 {A B} (c1 c2 c3 : Outcome A) (f : A -> A -> A -> B) :
  is_ok (obind c1 (fun x1 => obind c2 (fun x2 => obind c3 (fun x3 => Ok (f x1 x2 x3)))))
  = is_ok c1 && is_ok c2 && is_ok c3.
Proof. destruct c1, c2, c3; reflexivity. Qed.

Lemma is_ok_4 {A B} (c1 c2 c3 c4 : Outcome A) (f : A -> A -> A -> A -> B) :
  is_ok (obind c1 (fun x1 => obind c2 (fun x2 => obind c3 (fun x3 =>
           obind c4 (fun x4 => Ok (f x1 x2 x3 x4))))))
  = is_ok c1 && is_ok c2 && is_ok c3 && is_ok c4.
Proof. destruct c1, c2, c3, c4; reflexivity. Qed.

Lemma find_tool_unknown (name : string) :
  ~ In name (map JsonSchema.name ListTools) -> find_tool name = None.
Proof.
  intros Hunknown. unfold find_tool. cbn [find ListTools JsonSchema.name].
  repeat match goal with
         | |- context [String.eqb name ?s] =>
             destruct (String.eqb_spec name s) as [->|?];
             [exfalso; apply Hunknown; cbn; tauto|]
         end.
  reflexivity.
Qed.

(** Settle an equation between booleans built from the tests on the
    values of the arguments. *)
Ltac settle_tests :=
  rewrite ?is_ok_z_string_min1, ?is_ok_z_string_optional, ?is_ok_z_enum_default,
    ?is_ok_z_limit, ?allows_string, ?allows_enum, ?allows_limit;
  repeat match goal with
         | |- context [is_name ?v] =>
             is_var v; destruct v; cbn [is_name is_optional_string is_undefined negb]
         end;
  repeat match goal with
         | |- context [is_undefined ?v] => destruct (is_undefined v)
         | |- context [is_sort ?o ?v] => destruct (is_sort o v)
         | |- context [is_limit ?v] => destruct (is_limit v)
         | |- context [is_optional_string ?v] => destruct (is_optional_string v)
         | |- context [String.eqb ?s ""] => destruct (String.eqb s "")
         end;
  reflexivity.

(** X20. The validation of a tool accepts the arguments exactly when they
    conform to the input schema the tool advertises and every required
    value is a non-empty string: the schemas of the dispatcher and the
    advertised ones agree on types, enumerations, bounds and required keys,
    and differ only on the empty string. *)
Theorem validation_agrees_with_advertised_schema
  (name : string) (tool : JsonSchema.Tool) (arguments : value) :
  find_tool name = Some tool ->
  is_ok (tool_call name arguments)
  = conforms tool arguments && required_are_names tool arguments.
Proof.
  intros Hfind.
  destruct (in_dec string_dec name (map JsonSchema.name ListTools)) as [Hin | Hout].
  2:{ rewrite (find_tool_unknown name Hout) in Hfind. discriminate Hfind. }
  cbn in Hin.
  repeat destruct Hin as [<- | Hin]; try contradiction;
    injection Hfind as <-;
    (destruct arguments as [| | | | | |props]; try reflexivity);
    unfold tool_call, conforms, required_are_names, sorts_of_listing,
      sorts_of_comments, sorts_of_user, sorts_of_search;
    cbn [String.eqb Ascii.eqb Bool.eqb z_field forallb
         JsonSchema.required JsonSchema.properties fst snd];
    first [ rewrite is_ok_1 | rewrite is_ok_2 | rewrite is_ok_3 | rewrite is_ok_4 ];
    repeat match goal with
           | |- context [lookup ?key props] =>
               let v := fresh "v" in
               generalize (lookup key props); intros v
           end;
    settle_tests.
Qed.

Lemma validation_agrees_with_advertised_schema_witness :
  is_ok (tool_call "get_user_posts" (JObj [("username", JStr "spez"); ("limit", JNum 0)]))
  = false
  /\ is_ok (tool_call "get_user_posts" (JObj [("username", JStr "")])) = false
  /\ is_ok (tool_call "get_user_posts"
              (JObj [("username", JStr "spez"); ("sort", JStr "top")])) = true.
Proof.
  assert (Hfind : exists tool, find_tool "get_user_posts" = Some tool)
    by (eexists; reflexivity).
  destruct Hfind as [tool Hfind].
  rewrite !(validation_agrees_with_advertised_schema "get_user_posts" tool _ Hfind).
  injection Hfind as <-. repeat split.
Defined.

(** X21. The defaults a tool advertises are the ones validation applies:
    filling them in for the properties that are absent changes neither the
    outcome of validation nor the call that is made. *)
Theorem advertised_defaults_are_applied
  (name : string) (tool : JsonSchema.Tool) (arguments : value) :
  find_tool name = Some tool ->
  tool_call name (with_defaults tool arguments) = tool_call name arguments.
Proof.
  intros Hfind.
  destruct (in_dec string_dec name (map JsonSchema.name ListTools)) as [Hin | Hout].
  2:{ rewrite (find_tool_unknown name Hout) in Hfind. discriminate Hfind. }
  cbn in Hin.
  repeat destruct Hin as [<- | Hin]; try contradiction;
    injection Hfind as <-;
    (destruct arguments as [| | | | | |props]; try reflexivity);
    unfold tool_call, with_defaults;
    cbn [String.eqb Ascii.eqb Bool.eqb z_field flat_map app fst snd
         JsonSchema.properties JsonSchema.default string_property enum_property
         limit_property];
    try reflexivity;
    try (destruct (lookup "sort" props) eqn:Hsort);
    try (destruct (lookup "limit" props) eqn:Hlimit);
    cbn [is_undefined app lookup String.eqb Ascii.eqb Bool.eqb];
    rewrite ?Hsort, ?Hlimit; reflexivity.
Qed.

Lemma advertised_defaults_are_applied_witness :
  tool_call "search_subreddits" (JObj [("limit", JNum 25); ("query", JStr "rocq")])
  = tool_call "search_subreddits" (JObj [("query", JStr "rocq")]).
Proof.
  assert (Hfind : exists tool, find_tool "search_subreddits" = Some tool)
    by (eexists; reflexivity).
  destruct Hfind as [tool Hfind].
  rewrite <- (advertised_defaults_are_applied "search_subreddits" tool
                (JObj [("query", JStr "rocq")]) Hfind).
  injection Hfind as <-. reflexivity.
Defined.

(** ** Where the session comes from *)

Lemma exchange_success (config : Config.t) (env : Env) (w w' : World) :
  exchange_token config env w = (Ok tt, w') ->
  exists res data token lifetime,
    respond env (length (requests (log w))) (token_request config) = Some res
    /\ ok res = true
    /\ payload res = Some data
    /\ get data "access_token" = Ok token
    /\ get data "expires_in" = Ok lifetime
    /\ this w'
       = {| accessToken := token;
            tokenExpiry :=
              fsub
                (fadd (Num (now env (reads w)))
                   (fmul (to_number (StringToNumber env) lifetime) (Num 1000)))
                (Num 60000) |}.
Proof.
  intros Hrun.
  destruct (respond env (length (requests (log w))) (token_request config))
    as [res|] eqn:Hres.
  2:{ unfold exchange_token, bind, fetch in Hrun. rewrite Hres in Hrun.
      discriminate Hrun. }
  destruct (ok res) eqn:Hok.
  2:{ rewrite (exchange_rejected config env w res Hres Hok) in Hrun. discriminate Hrun. }
  destruct (payload res) as [data|] eqn:Hpayload.
  2:{ unfold exchange_token, bind, fetch, json in Hrun.
      rewrite Hres, Hok in Hrun. cbn [negb payload] in Hrun.
      rewrite Hpayload in Hrun. discriminate Hrun. }
  destruct (get data "access_token") as [token|e] eqn:Htoken.
  2:{ unfold exchange_token, bind, fetch, json, lift in Hrun.
      rewrite Hres, Hok in Hrun. cbn [negb payload] in Hrun.
      rewrite Hpayload, Htoken in Hrun. discriminate Hrun. }
  destruct (get data "expires_in") as [lifetime|e] eqn:Hlifetime.
  2:{ destruct data; cbn [get] in Htoken, Hlifetime; discriminate. }
  rewrite (exchange_granted config env w res data token lifetime
             Hres Hok Hpayload Htoken Hlifetime) in Hrun.
  injection Hrun as <-.
  exists res, data, token, lifetime. repeat split; assumption.
Qed.

(** X22. A query changes the token and the expiry of the session only
    through a granted token exchange: either the session is as it was, or
    the query sent the token exchange as its first request, the token
    endpoint answered that request within 200..299 with a body that is
    JSON, and the token the session now holds is the access_token of that
    body. *)
Theorem session_changes_only_by_granted_exchange
  (config : Config.t) (q : Query) (env : Env) (w : World) :
  this (snd (perform config q env w)) = this w
  \/ exists res data rest,
       requests (log (snd (perform config q env w)))
       = (requests (log w) ++ token_request config :: rest)%list
       /\ respond env (length (requests (log w))) (token_request config) = Some res
       /\ ok res = true
       /\ payload res = Some data
       /\ get data "access_token"
          = Ok (accessToken (this (snd (perform config q env w)))).
Proof.
  destruct (endpoint q) as [ep|e] eqn:Hep.
  2:{ left. rewrite perform_factors, Hep. reflexivity. }
  rewrite (perform_world config q ep env w Hep).
  destruct (token_is_fresh_total env w) as [fresh [w0 Hcheck]].
  destruct (token_is_fresh_keeps env w w0 _ Hcheck) as [Hthis Hlog].
  pose proof (authenticate_after_check config env w w0 fresh Hcheck) as Hauth.
  destruct fresh.
  - left. destruct (request_after_authenticate config ep env w w0 Hauth) as [_ ->].
    exact Hthis.
  - destruct (exchange_token config env w0) as [[[]|e] w1] eqn:Hexchange.
    + right.
      destruct (exchange_success config env w0 w1 Hexchange)
        as [res [data [token [lifetime [Hres [Hok [Hpayload [Htoken [_ Hnew]]]]]]]]].
      destruct (request_after_authenticate config ep env w w1 Hauth) as [Hsent ->].
      exists res, data, [api_request config (accessToken (this w1)) ep].
      rewrite Hsent.
      pose proof (exchange_requests config env w0) as Hrequests.
      rewrite Hexchange in Hrequests. cbn [snd] in Hrequests.
      rewrite Hrequests, Hlog, <- app_assoc. rewrite Hlog in Hres.
      split; [reflexivity|]. split; [exact Hres|]. split; [exact Hok|].
      split; [exact Hpayload|]. rewrite Hnew. exact Htoken.
    + left. rewrite (makeRequest_auth_throws config ep env w w1 e Hauth). cbn [snd].
      destruct (exchange_failure config env w0 w1 e Hexchange) as [-> _].
      exact Hthis.
Qed.

(** X23. When a granted exchange reports no lifetime (expires_in absent),
    the expiry recorded is not a number, and the token is never fresh
    afterwards: every later query exchanges again. *)
Theorem token_without_lifetime_is_never_fresh
  (config : Config.t) (env : Env) (w w0 : World) (res : Response)
  (data token : value) :
  token_is_fresh env w = (Ok false, w0) ->
  respond env (length (requests (log w0))) (token_request config) = Some res ->
  ok res = true ->
  payload res = Some data ->
  get data "access_token" = Ok token ->
  get data "expires_in" = Ok JUndefined ->
  exists w',
    authenticate config env w = (Ok tt, w')
    /\ tokenExpiry (this w') = NaN
    /\ forall (later : Env) (w2 : World),
         this w2 = this w' ->
         fst (token_is_fresh later w2) = Ok false
         /\ requests (log (snd (authenticate config later w2)))
            = (requests (log w2) ++ [token_request config])%list.
Proof.
  intros Hcheck Hres Hok Hpayload Htoken Hlifetime.
  rewrite (authenticate_after_check config env w w0 false Hcheck).
  rewrite (exchange_granted config env w0 res data token JUndefined
             Hres Hok Hpayload Htoken Hlifetime).
  eexists. split; [reflexivity|]. split; [reflexivity|].
  intros later w2 Hsame.
  assert (Hstale : fst (token_is_fresh later w2) = Ok false).
  { rewrite token_is_fresh_eq, Hsame. cbn [this accessToken tokenExpiry].
    destruct (truthy token); reflexivity. }
  split; [exact Hstale|].
  destruct (token_is_fresh later w2) as [r w3] eqn:Hlater.
  cbn [fst] in Hstale. subst r.
  rewrite (authenticate_after_check config later w2 w3 false Hlater).
  rewrite exchange_requests.
  destruct (token_is_fresh_keeps later w2 w3 _ Hlater) as [_ ->]. reflexivity.
Qed.

Lemma token_without_lifetime_is_never_fresh_witness :
  exists w',
    authenticate config_anonymous
      (remote (token_reply_without_lifetime "fresh") (listing_reply []) 1700000000000)
      (startup config_anonymous) = (Ok tt, w')
    /\ tokenExpiry (this w') = NaN
    /\ fst (token_is_fresh sample_remote w') = Ok false.
Proof.
  destruct (token_without_lifetime_is_never_fresh config_anonymous
              (remote (token_reply_without_lifetime "fresh") (listing_reply [])
                 1700000000000)
              (startup config_anonymous) (startup config_anonymous)
              (token_reply_without_lifetime "fresh")
              (JObj [("access_token", JStr "fresh")]) (JStr "fresh")
              eq_refl eq_refl eq_refl eq_refl eq_refl eq_refl)
    as [w' [Hrun [Hexpiry Hlater]]].
  exists w'. split; [exact Hrun|]. split; [exact Hexpiry|].
  exact (proj1 (Hlater sample_remote w' eq_refl)).
Defined.

(** ** The two departures, in general *)

(** X24. For every search_posts call that validation accepts, the record of
    parameters the method serializes is q, sort, limit, type, then
    restrict_sr when a subreddit is given, then t, where limit is 25 and t is
    the limit of the caller (25 when the caller gave none); and when no
    subreddit is given (absent or empty), the endpoint is "/search?" followed
    by exactly these parameters, form-encoded. *)
Theorem search_posts_tool_always_sends_default_limit
  (arguments : value) (q : Query) :
  tool_call "search_posts" arguments = Ok q ->
  exists props query subreddit sort n,
    arguments = JObj props
    /\ q = SearchPosts query subreddit sort (JNum n) JUndefined
    /\ 1 <= n <= 100
    /\ (lookup "limit" props = JNum n
        \/ lookup "limit" props = JUndefined /\ n = 25)
    /\ search_params query subreddit (default_to (JStr "relevance") sort) (JNum n)
         (default_to (JNum 25) JUndefined)
       = Ok ([("q", to_string query);
              ("sort", to_string (default_to (JStr "relevance") sort));
              ("limit", "25");
              ("type", "link")]
             ++ (if truthy subreddit then [("restrict_sr", "true")] else [])
             ++ [("t", show n)])%list
    /\ (truthy subreddit = false ->
        endpoint q
        = Ok ("/search?"
              ++ URLSearchParams
                   [("q", to_string query);
                    ("sort", to_string (default_to (JStr "relevance") sort));
                    ("limit", "25");
                    ("type", "link");
                    ("t", show n)])).
Proof.
  intros Hcall.
  destruct (search_posts_tool_call arguments q Hcall)
    as [query [subreddit [sort [n [-> [Hn Hlimit]]]]]].
  destruct arguments as [| | | | | |props];
    try (unfold tool_call in Hcall; cbn [String.eqb Ascii.eqb Bool.eqb z_field obind]
           in Hcall; discriminate Hcall).
  exists props, query, subreddit, sort, n.
  split; [reflexivity|]. split; [reflexivity|]. split; [exact Hn|].
  split; [exact Hlimit|].
  pose proof (search_posts_tool_params query subreddit sort n Hn) as Hparams.
  split; [exact Hparams|].
  intros Hnone. cbn [endpoint]. rewrite Hparams, Hnone. reflexivity.
Qed.

Lemma search_posts_tool_always_sends_default_limit_witness :
  endpoint (SearchPosts (JStr "cats") JUndefined (JStr "top") (JNum 5) JUndefined)
  = Ok "/search?q=cats&sort=top&limit=25&type=link&t=5".
Proof.
  destruct (search_posts_tool_always_sends_default_limit
              (JObj [("query", JStr "cats"); ("sort", JStr "top"); ("limit", JNum 5)])
              (SearchPosts (JStr "cats") JUndefined (JStr "top") (JNum 5) JUndefined)
              eq_refl)
    as [props [query [subreddit [sort [n [_ [Hq [_ [_ [_ Hep]]]]]]]]]].
  injection Hq as <- <- <- <-. exact (Hep eq_refl).
Defined.

(** X25. The first query after start-up always begins with a token
    exchange, whatever the configuration holds - a pre-supplied access token
    included - at any clock reading from 1970 on; and if the query goes on
    to the API host, the bearer is the access_token the exchange returned. *)
Theorem first_query_always_exchanges
  (config : Config.t) (q : Query) (ep : string) (env : Env) :
  0 <= now env O ->
  endpoint q = Ok ep ->
  exists rest,
    requests (log (snd (perform config q env (startup config))))
    = token_request config :: rest
    /\ (rest = []
        \/ exists res data token,
             rest = [api_request config token ep]
             /\ respond env O (token_request config) = Some res
             /\ payload res = Some data
             /\ get data "access_token" = Ok token).
Proof.
  intros Hnow Hep.
  rewrite (perform_world config q ep env _ Hep).
  pose proof (startup_token_is_stale config env Hnow) as Hstale.
  destruct (token_is_fresh env (startup config)) as [r w0] eqn:Hcheck.
  cbn [fst] in Hstale. subst r.
  destruct (token_is_fresh_keeps env _ w0 _ Hcheck) as [_ Hlog].
  pose proof (authenticate_after_check config env _ w0 false Hcheck) as Hauth.
  cbn iota in Hauth.
  pose proof (exchange_requests config env w0) as Hsent.
  rewrite Hlog in Hsent. cbn [startup log requests flat_map app] in Hsent.
  destruct (exchange_token config env w0) as [[[]|e] w1] eqn:Hexchange; cbn [snd] in Hsent.
  - destruct (exchange_success config env w0 w1 Hexchange)
      as [res [data [token [lifetime [Hres [_ [Hpayload [Htoken [_ Hnew]]]]]]]]].
    destruct (request_after_authenticate config ep env _ w1 Hauth) as [-> _].
    rewrite Hsent. eexists. split; [reflexivity|]. right.
    exists res, data, token. rewrite Hnew. cbn [accessToken].
    rewrite Hlog in Hres. split; [reflexivity|].
    split; [exact Hres|]. split; [exact Hpayload | exact Htoken].
  - rewrite (makeRequest_auth_throws config ep env _ w1 e Hauth). cbn [snd].
    rewrite Hsent. exists []. split; [reflexivity | left; reflexivity].
Qed.

Lemma first_query_always_exchanges_witness :
  exists rest,
    requests (log (snd (perform config_presupplied (GetPost (JStr "abc123"))
                          sample_remote (startup config_presupplied))))
    = token_request config_presupplied :: rest.
Proof.
  destruct (first_query_always_exchanges config_presupplied (GetPost (JStr "abc123"))
              "/comments/abc123" sample_remote ltac:(discriminate) eq_refl)
    as [rest [Hsent _]].
  exists rest. exact Hsent.
Defined.

(** ** Separators of a form-encoded text *)







